(** * ROSHN Pulse front-end: the request/response contract of [App.tsx]

    A shallow embedding of the interactive logic of
    [frontend/roshn-pulse-app/src/App.tsx]: the configured base URL, the four
    submit handlers ([submitBrain], [submitVision], [submitScribeFile],
    [submitScribeText]) and the values the view derives from the stored
    results (compliance percentage and tone, overlay, export link).

    The handlers are [async] functions over React state.  They are embedded
    in a small monad that threads the component state and a chronological
    trace of the effects a handler performs (state setters, [alert], [fetch],
    [console.error]) and that carries JavaScript exceptions, so that
    [try]/[catch]/[finally] reads as in the source.  The remote services are
    an oracle from requests to settled [fetch] promises.  A run is one submit
    event, from the call of its handler to the end of the handler; other
    events of the page are not interleaved with it, and a request that never
    settles has no run.

    JavaScript numbers are IEEE 754 binary64 values, here the kernel's
    primitive floats.  Strings are UTF-8 text ([string]).  The builtins
    [JSON.parse] and [JSON.stringify] belong to the platform, not to the
    repository: the handlers are stated over the interface [JS.Platform],
    and [RefPlatform] further down implements it. *)

From Stdlib Require Import ZArith List String Ascii Bool Lia Floats DecimalString.
Import ListNotations.
Local Open Scope string_scope.
Set Warnings "-inexact-float,-register-all".

(* ===================================================================== *)
(** * The JavaScript values and builtins the component uses              *)
(* ===================================================================== *)

Module JS.

(** The values [JSON.parse] and [Response.json()] produce.  An object is the
    list of its own properties in enumeration order. *)
Inductive value : Type :=
| JNull
| JBool (b : bool)
| JNumber (x : float)
| JString (s : string)
| JArray (items : list value)
| JObject (props : list (string * value)).

(** [ToBoolean] on these values: [null], [false], [0], [-0], [NaN] and the
    empty string are falsy. *)
Definition truthy (v : value) : bool :=
  match v with
  | JNull => false
  | JBool b => b
  | JNumber x => negb (PrimFloat.eqb x 0%float) && PrimFloat.eqb x x
  | JString s => negb (s =? "")
  | JArray _ | JObject _ => true
  end.

(** [ToBoolean] of a possibly [undefined] value. *)
Definition truthy_opt (o : option value) : bool :=
  match o with
  | Some v => truthy v
  | None => false
  end.

Fixpoint assoc (k : string) (props : list (string * value)) : option value :=
  match props with
  | [] => None
  | (k', v) :: rest => if k' =? k then Some v else assoc k rest
  end.

(** [v?.k] for a property name [k] that no prototype defines (the component
    reads [overlay_url], [compliance_rate] and [export_csv_url] only):
    [None] is [undefined]. *)
Definition get (v : value) (k : string) : option value :=
  match v with
  | JObject props => assoc k props
  | _ => None
  end.

(** [s || d] on strings. *)
Definition str_or (s d : string) : string :=
  if s =? "" then d else s.

(** ** [String.prototype.trim]

    White space and line terminators of ECMAScript, in their UTF-8
    encodings: TAB, LF, VT, FF, CR, SP; U+00A0; U+1680; U+2000..U+200A,
    U+2028, U+2029, U+202F, U+205F; U+3000; U+FEFF. *)
Definition is_ws1 (a : ascii) : bool :=
  let n := nat_of_ascii a in
  (((9 <=? n) && (n <=? 13)) || (n =? 32))%nat.

Definition is_ws2 (a b : ascii) : bool :=
  ((nat_of_ascii a =? 194) && (nat_of_ascii b =? 160))%nat.

Definition is_ws3 (a b c : ascii) : bool :=
  let x := nat_of_ascii a in
  let y := nat_of_ascii b in
  let z := nat_of_ascii c in
  (((x =? 225) && (y =? 154) && (z =? 128))
   || ((x =? 226) && (y =? 128)
       && (((128 <=? z) && (z <=? 138)) || (z =? 168) || (z =? 169) || (z =? 175)))
   || ((x =? 226) && (y =? 129) && (z =? 159))
   || ((x =? 227) && (y =? 128) && (z =? 128))
   || ((x =? 239) && (y =? 187) && (z =? 191)))%nat.

(** Drop leading white space.  With [fwd = false] the list is a reversed
    text, whose multi-byte sequences come last byte first. *)
Fixpoint drop_ws (fwd : bool) (l : list ascii) : list ascii :=
  match l with
  | [] => []
  | a :: r1 =>
      if is_ws1 a then drop_ws fwd r1
      else
        match r1 with
        | [] => l
        | b :: r2 =>
            if (if fwd then is_ws2 a b else is_ws2 b a) then drop_ws fwd r2
            else
              match r2 with
              | [] => l
              | c :: r3 =>
                  if (if fwd then is_ws3 a b c else is_ws3 c b a)
                  then drop_ws fwd r3
                  else l
              end
        end
  end.

Definition trimStart (s : string) : string :=
  string_of_list_ascii (drop_ws true (list_ascii_of_string s)).

Definition trimEnd (s : string) : string :=
  string_of_list_ascii
    (rev (drop_ws false (rev (list_ascii_of_string s)))).

Definition trim (s : string) : string := trimEnd (trimStart s).

(** ** Numbers *)

(** The integer [n] as a number; exact for [|n| <= 2^53]. *)
Definition of_Z (n : Z) : float :=
  let a := PrimFloat.of_uint63 (Uint63.of_Z (Z.abs n)) in
  if (n <? 0)%Z then PrimFloat.opp a else a.

(** [Math.round]: the closest integer, ties towards +Infinity; NaN, the
    infinities, the zeros and integers are returned as they are, and a
    result that rounds to zero keeps the sign of the argument. *)
Definition Math_round (x : float) : float :=
  match Prim2SF x with
  | S754_finite s m e =>
      if (0 <=? e)%Z then x
      else
        let sm := if s then Z.neg m else Z.pos m in
        let n := Z.shiftr (2 * sm + 2 ^ (- e)) (1 - e) in
        if (n =? 0)%Z then (if s then (-0)%float else 0%float) else of_Z n
  | _ => x
  end.

(** The value of [x] when it is an integer with [|x| < 2^53]. *)
Definition integer_of (x : float) : option Z :=
  match Prim2SF x with
  | S754_zero _ => Some 0%Z
  | S754_finite s m e =>
      let sgn := fun z : Z => if s then (- z)%Z else z in
      if (0 <=? e)%Z then
        let n := (Z.pos m * 2 ^ e)%Z in
        if (n <? 2 ^ 53)%Z then Some (sgn n) else None
      else if (Z.pos m mod 2 ^ (- e) =? 0)%Z
           then Some (sgn (Z.pos m / 2 ^ (- e))%Z)
           else None
  | _ => None
  end.

Definition decimal (n : Z) : string := NilZero.string_of_int (Z.to_int n).

(** Text free of lone surrogates.  In UTF-8 the byte [ED] is followed by a
    byte in [80..9F]; [ED] before a byte in [A0..BF] begins the three bytes
    that stand for a surrogate on its own, which is what an unpaired
    [\uD800]..[\uDFFF] escape leaves in a parsed string. *)
Fixpoint scalar (l : list ascii) : bool :=
  match l with
  | a :: r =>
      match r with
      | b :: _ =>
          negb ((N_of_ascii a =? 237) && (160 <=? N_of_ascii b)
                && (N_of_ascii b <=? 191))%N
          && scalar r
      | [] => true
      end
  | [] => true
  end.

Definition scalar_text (s : string) : bool := scalar (list_ascii_of_string s).

(** The platform: what the ECMAScript builtins compute.  [JSON_parse s] is
    [None] when [JSON.parse(s)] throws a [SyntaxError].  The laws are the
    facts about JSON that the statements on the component rely on: the
    empty text is not JSON, ["{}"] is the empty object and prints as such,
    and an object with one string field reads back from its text. *)
Class Platform : Type := {
  JSON_parse : string -> option value;
  JSON_stringify : value -> string;
  (** [Number::toString] away from the integers below [2^53]. *)
  Number_toString_frac : float -> string;
  JSON_parse_empty_text : JSON_parse "" = None;
  JSON_parse_empty_object : JSON_parse "{}" = Some (JObject []);
  JSON_stringify_empty_object : JSON_stringify (JObject []) = "{}";
  JSON_parse_stringify_field :
    forall k t : string,
      scalar_text k = true -> scalar_text t = true ->
      JSON_parse (JSON_stringify (JObject [(k, JString t)]))
      = Some (JObject [(k, JString t)])
}.

(** [Number::toString]: [NaN], the infinities and the integers below [2^53]
    are printed here, every other number by the platform. *)
Definition Number_toString `{Platform} (x : float) : string :=
  match Prim2SF x with
  | S754_nan => "NaN"
  | S754_infinity s => if s then "-Infinity" else "Infinity"
  | _ =>
      match integer_of x with
      | Some n => decimal n
      | None => Number_toString_frac x
      end
  end.

(** [ToString], as a template literal applies it; [None] when it throws a
    [TypeError].  An array is joined with commas, a [null] item printing as
    nothing.  An object prints through [Object.prototype.toString] unless an
    own property [toString] hides it: that property is not callable, and
    [valueOf] gives no primitive either. *)
Fixpoint ToString `{Platform} (v : value) : option string :=
  match v with
  | JNull => Some "null"
  | JBool b => Some (if b then "true" else "false")
  | JNumber x => Some (Number_toString x)
  | JString s => Some s
  | JArray items =>
      let item := fun x : value =>
        match x with
        | JNull => Some ""
        | _ => ToString x
        end in
      (fix join (l : list value) : option string :=
         match l with
         | [] => Some ""
         | [x] => item x
         | x :: rest =>
             match item x, join rest with
             | Some a, Some b => Some (a ++ "," ++ b)
             | _, _ => None
             end
         end) items
  | JObject props =>
      match assoc "toString" props with
      | Some _ => None
      | None => Some "[object Object]"
      end
  end.

End JS.

Import JS.

(* ===================================================================== *)
(** * The component                                                      *)
(* ===================================================================== *)

(** [busy : null | "brain" | "vision" | "scribe"]. *)
Inductive Panel : Type := brain | vision | scribe.

(** A [File] picked in a file input. *)
Record File : Type := { name : string; contents : string }.

(** The [body] of a request: a string, or a [FormData] as its entries. *)
Inductive Body : Type :=
| TextBody (text : string)
| FormBody (entries : list (string * File)).

(** [fetch(url, { method, headers, body })]. *)
Record Request : Type := {
  url : string;
  method : string;
  headers : list (string * string);
  body : Body
}.

(** What a handler can catch: [new Error(message)], the [TypeError] of a
    failed transport or body stream, the [SyntaxError] of [JSON.parse]. *)
Inductive Thrown : Type :=
| Error (message : string)
| TypeError (reason : string)
| SyntaxError.

(** A response: its status and its decoded body text, [inl e] when reading
    the body stream rejects with [e]. *)
Record Response : Type := {
  status : N;
  payload : Thrown + string
}.

(** [response.ok]: the status is in the range 200-299. *)
Definition ok (r : Response) : bool :=
  ((200 <=? status r) && (status r <=? 299))%N.

(** What is outside the component: the build-time variable
    [import.meta.env.VITE_API_BASE] ([None] when undefined) and the remote
    services, which settle every [fetch] either by rejecting ([inl]) or with
    a response. *)
Record Env : Type := {
  VITE_API_BASE : option string;
  remote : Request -> Thrown + Response
}.

(** The state of [App]: the [useState] cells, and for the two file inputs
    the file their ref yields ([ref.current?.files?.[0]]). *)
Record AppState : Type := {
  busy : option Panel;
  brainJson : string;
  brainResult : value;
  visionResult : value;
  visionOverlay : option string;
  visionFileName : string;
  visionFileRef : option File;
  scribeText : string;
  scribeResult : value;
  scribeFileRef : option File
}.

(** The state [App] starts in ([brainJson] is the sample payload). *)
Definition initial (sample : string) : AppState :=
  {| busy := None; brainJson := sample; brainResult := JNull;
     visionResult := JNull; visionOverlay := None; visionFileName := "";
     visionFileRef := None; scribeText := ""; scribeResult := JNull;
     scribeFileRef := None |}.

(** What a handler does, in order. *)
Inductive Event : Type :=
| PreventDefault
| SetBusy (b : option Panel)
| SetBrainResult (d : value)
| SetVisionResult (d : value)
| SetVisionOverlay (o : option string)
| SetVisionFileName (n : string)
| SetScribeResult (d : value)
| Alert (message : string)
| Fetch (req : Request)
| ConsoleError (e : Thrown).

(** ** The handler monad: state, trace and exceptions *)

Inductive Outcome (A : Type) : Type :=
| Return (a : A)
| Throw (e : Thrown).
Arguments Return {A} a.
Arguments Throw {A} e.

Record World : Type := { app : AppState; trace : list Event }.

Definition M (A : Type) : Type := World -> Outcome A * World.

Definition ret {A} (a : A) : M A := fun w => (Return a, w).

Definition bind {A B} (c : M A) (k : A -> M B) : M B :=
  fun w =>
    match c w with
    | (Return a, w') => k a w'
    | (Throw e, w') => (Throw e, w')
    end.

Definition throw {A} (e : Thrown) : M A := fun w => (Throw e, w).

Declare Scope js_scope.
Delimit Scope js_scope with js.
Notation "x <- c ;; k" := (bind c (fun x => k))
  (at level 61, c at next level, right associativity) : js_scope.
Notation "c ;; k" := (bind c (fun _ => k))
  (at level 61, right associativity) : js_scope.
Local Open Scope js_scope.

(** [try { body } catch (error) { handler error } finally { final }]. *)
Definition try_catch_finally {A} (body : M A) (handler : Thrown -> M A)
    (final : M unit) : M A :=
  fun w =>
    let (r, w1) :=
      match body w with
      | (Return a, w') => (Return a, w')
      | (Throw e, w') => handler e w'
      end in
    match final w1 with
    | (Return _, w2) => (r, w2)
    | (Throw e, w2) => (Throw e, w2)
    end.

Definition emit (e : Event) : M unit :=
  fun w => (Return tt, {| app := app w; trace := trace w ++ [e] |}).

Definition update (f : AppState -> AppState) : M unit :=
  fun w => (Return tt, {| app := f (app w); trace := trace w |}).

(** The state as the handler's closure sees it. *)
Definition state : M AppState := fun w => (Return (app w), w).

Definition with_busy (b : option Panel) (s : AppState) : AppState :=
  {| busy := b; brainJson := brainJson s; brainResult := brainResult s;
     visionResult := visionResult s; visionOverlay := visionOverlay s;
     visionFileName := visionFileName s; visionFileRef := visionFileRef s;
     scribeText := scribeText s; scribeResult := scribeResult s;
     scribeFileRef := scribeFileRef s |}.

Definition with_brainResult (d : value) (s : AppState) : AppState :=
  {| busy := busy s; brainJson := brainJson s; brainResult := d;
     visionResult := visionResult s; visionOverlay := visionOverlay s;
     visionFileName := visionFileName s; visionFileRef := visionFileRef s;
     scribeText := scribeText s; scribeResult := scribeResult s;
     scribeFileRef := scribeFileRef s |}.

Definition with_visionResult (d : value) (s : AppState) : AppState :=
  {| busy := busy s; brainJson := brainJson s; brainResult := brainResult s;
     visionResult := d; visionOverlay := visionOverlay s;
     visionFileName := visionFileName s; visionFileRef := visionFileRef s;
     scribeText := scribeText s; scribeResult := scribeResult s;
     scribeFileRef := scribeFileRef s |}.

Definition with_visionOverlay (o : option string) (s : AppState) : AppState :=
  {| busy := busy s; brainJson := brainJson s; brainResult := brainResult s;
     visionResult := visionResult s; visionOverlay := o;
     visionFileName := visionFileName s; visionFileRef := visionFileRef s;
     scribeText := scribeText s; scribeResult := scribeResult s;
     scribeFileRef := scribeFileRef s |}.

Definition with_visionFileName (n : string) (s : AppState) : AppState :=
  {| busy := busy s; brainJson := brainJson s; brainResult := brainResult s;
     visionResult := visionResult s; visionOverlay := visionOverlay s;
     visionFileName := n; visionFileRef := visionFileRef s;
     scribeText := scribeText s; scribeResult := scribeResult s;
     scribeFileRef := scribeFileRef s |}.

Definition with_scribeResult (d : value) (s : AppState) : AppState :=
  {| busy := busy s; brainJson := brainJson s; brainResult := brainResult s;
     visionResult := visionResult s; visionOverlay := visionOverlay s;
     visionFileName := visionFileName s; visionFileRef := visionFileRef s;
     scribeText := scribeText s; scribeResult := d;
     scribeFileRef := scribeFileRef s |}.

(** The [useState] setters. *)
Definition setBusy (b : option Panel) : M unit :=
  emit (SetBusy b) ;; update (with_busy b).
Definition setBrainResult (d : value) : M unit :=
  emit (SetBrainResult d) ;; update (with_brainResult d).
Definition setVisionResult (d : value) : M unit :=
  emit (SetVisionResult d) ;; update (with_visionResult d).
Definition setVisionOverlay (o : option string) : M unit :=
  emit (SetVisionOverlay o) ;; update (with_visionOverlay o).
Definition setVisionFileName (n : string) : M unit :=
  emit (SetVisionFileName n) ;; update (with_visionFileName n).
Definition setScribeResult (d : value) : M unit :=
  emit (SetScribeResult d) ;; update (with_scribeResult d).

Definition preventDefault : M unit := emit PreventDefault.
Definition alert (message : string) : M unit := emit (Alert message).
Definition console_error (e : Thrown) : M unit := emit (ConsoleError e).

Section Handlers.

Context {platform : Platform} (env : Env).

(** [const API_BASE =
      import.meta.env.VITE_API_BASE?.toString() || "http://localhost:8000"]. *)
Definition API_BASE : string :=
  match VITE_API_BASE env with
  | Some s => str_or s "http://localhost:8000"
  | None => "http://localhost:8000"
  end.

(** [await fetch(url, init)]. *)
Definition fetch (req : Request) : M Response :=
  emit (Fetch req) ;;
  match remote env req with
  | inl e => throw e
  | inr response => ret response
  end.

(** [await response.text()]. *)
Definition text (response : Response) : M string :=
  match payload response with
  | inl e => throw e
  | inr s => ret s
  end.

(** [await response.json()]. *)
Definition json (response : Response) : M value :=
  match payload response with
  | inl e => throw e
  | inr s =>
      match JSON_parse s with
      | Some v => ret v
      | None => throw SyntaxError
      end
  end.

(** [if (!response.ok) throw new Error(await response.text())]. *)
Definition check_ok (response : Response) : M unit :=
  if negb (ok response)
  then (t <- text response ;; throw (Error t))
  else ret tt.

(** [ref ? `${API_BASE}${ref}` : null]. *)
Definition resolve (ref : option value) : M (option string) :=
  if truthy_opt ref then
    match ref with
    | Some u =>
        match ToString u with
        | Some path => ret (Some (API_BASE ++ path))
        | None => throw (TypeError "Cannot convert object to primitive value")
        end
    | None => ret None
    end
  else ret None.

Definition submitBrain : M unit :=
  preventDefault ;;
  s <- state ;;
  match JSON_parse (str_or (brainJson s) "{}") with
  | None => alert "JSON is invalid. Please fix the payload and try again."
  | Some payload =>
      setBusy (Some brain) ;;
      try_catch_finally
        (response <-
           fetch {| url := API_BASE ++ "/predict-delay";
                    method := "POST";
                    headers := [("Content-Type", "application/json")];
                    body := TextBody (JSON_stringify payload) |} ;;
         check_ok response ;;
         data <- json response ;;
         setBrainResult data)
        (fun error =>
           console_error error ;;
           alert "Unable to score the project right now. Check the backend.")
        (setBusy None)
  end.

Definition submitVision : M unit :=
  preventDefault ;;
  s <- state ;;
  match visionFileRef s with
  | None => alert "Please choose an image file first."
  | Some file =>
      setBusy (Some vision) ;;
      try_catch_finally
        (response <-
           fetch {| url := API_BASE ++ "/analyze-image";
                    method := "POST";
                    headers := [];
                    body := FormBody [("file", file)] |} ;;
         check_ok response ;;
         data <- json response ;;
         setVisionResult data ;;
         overlay <- resolve (get data "overlay_url") ;;
         setVisionOverlay overlay ;;
         setVisionFileName (name file))
        (fun error =>
           console_error error ;;
           alert "Unable to analyse the image. Please check the backend logs.")
        (setBusy None)
  end.

Definition submitScribeFile : M unit :=
  preventDefault ;;
  s <- state ;;
  match scribeFileRef s with
  | None => alert "Please select a PDF or text file."
  | Some file =>
      setBusy (Some scribe) ;;
      try_catch_finally
        (response <-
           fetch {| url := API_BASE ++ "/extract";
                    method := "POST";
                    headers := [];
                    body := FormBody [("file", file)] |} ;;
         check_ok response ;;
         data <- json response ;;
         setScribeResult data)
        (fun error =>
           console_error error ;;
           alert "File extraction failed. Check the backend service.")
        (setBusy None)
  end.

Definition submitScribeText : M unit :=
  preventDefault ;;
  s <- state ;;
  if trim (scribeText s) =? "" then ret tt
  else
    setBusy (Some scribe) ;;
    try_catch_finally
      (response <-
         fetch {| url := API_BASE ++ "/extract";
                  method := "POST";
                  headers := [("Content-Type", "application/json")];
                  body := TextBody
                            (JSON_stringify
                               (JObject [("text", JString (scribeText s))])) |} ;;
       check_ok response ;;
       data <- json response ;;
       setScribeResult data)
      (fun error =>
         console_error error ;;
         alert "Text extraction failed. Please retry once the backend is ready.")
      (setBusy None).

(** ** What the view derives from the state *)

(** [`${API_BASE}${scribeResult.export_csv_url}`], the [href] of the
    download link, when [scribeResult?.export_csv_url] is truthy; no link
    otherwise. *)
Definition exportLink (s : AppState) : Outcome (option string) :=
  fst (resolve (get (scribeResult s) "export_csv_url")
         {| app := s; trace := [] |}).

End Handlers.

Inductive Tone : Type := tone_ok | tone_warn | tone_bad.

(** [typeof visionResult?.compliance_rate === "number"
      ? Math.round((visionResult.compliance_rate ?? 0) * 100) : null]. *)
Definition compliancePct (s : AppState) : option float :=
  match get (visionResult s) "compliance_rate" with
  | Some (JNumber r) => Some (Math_round (r * 100)%float)
  | _ => None
  end.

(** [compliancePct === null ? undefined
      : compliancePct >= 90 ? "ok" : compliancePct >= 70 ? "warn" : "bad"]. *)
Definition complianceTone (s : AppState) : option Tone :=
  match compliancePct s with
  | None => None
  | Some pct =>
      Some (if (90 <=? pct)%float then tone_ok
            else if (70 <=? pct)%float then tone_warn
            else tone_bad)
  end.

(** The percentage of the summary card:
    [typeof compliancePct === "number" ? `${compliancePct}%` : "84%"]. *)
Definition compliancePctText `{Platform} (s : AppState) : string :=
  match compliancePct s with
  | Some pct => Number_toString pct ++ "%"
  | None => "84%"
  end.

(** The label inside the compliance pill. *)
Definition complianceLabel (s : AppState) : string :=
  match compliancePct s with
  | None => "Awaiting data"
  | Some _ =>
      match complianceTone s with
      | Some tone_ok => "On Track"
      | Some tone_warn => "Monitor"
      | _ => "Critical"
      end
  end.

(** The compliance cell of the imagery panel, rendered when [visionResult]
    is truthy: [typeof compliancePct === "number" ? `${compliancePct}%` : "--"]. *)
Definition complianceCell `{Platform} (s : AppState) : option string :=
  if truthy (visionResult s) then
    Some match compliancePct s with
         | Some pct => Number_toString pct ++ "%"
         | None => "--"
         end
  else None.

(** The overlay box: [visionOverlay ? <img src={visionOverlay}/> : "No overlay yet"]. *)
Inductive OverlayBox : Type :=
| OverlayImage (src : string)
| NoOverlayYet.

Definition overlayBox (s : AppState) : OverlayBox :=
  match visionOverlay s with
  | Some src => if src =? "" then NoOverlayYet else OverlayImage src
  | None => NoOverlayYet
  end.

Definition Panel_eqb (a b : Panel) : bool :=
  match a, b with
  | brain, brain | vision, vision | scribe, scribe => true
  | _, _ => false
  end.

(** [busy === panel]. *)
Definition busy_is (p : Panel) (s : AppState) : bool :=
  match busy s with
  | Some q => Panel_eqb q p
  | None => false
  end.

(** The four submit handlers and the [disabled] attribute of their buttons. *)
Inductive Handler : Type :=
| SubmitBrain | SubmitVision | SubmitScribeFile | SubmitScribeText.

Definition handler `{Platform} (env : Env) (h : Handler) : M unit :=
  match h with
  | SubmitBrain => submitBrain env
  | SubmitVision => submitVision env
  | SubmitScribeFile => submitScribeFile env
  | SubmitScribeText => submitScribeText env
  end.

Definition panel_of (h : Handler) : Panel :=
  match h with
  | SubmitBrain => brain
  | SubmitVision => vision
  | SubmitScribeFile | SubmitScribeText => scribe
  end.

Definition disabled (h : Handler) (s : AppState) : bool :=
  match h with
  | SubmitScribeText => busy_is scribe s || (trim (scribeText s) =? "")
  | _ => busy_is (panel_of h) s
  end.

(** One submit event: the handler runs to completion from state [s]. *)
Definition run `{Platform} (env : Env) (h : Handler) (s : AppState)
  : Outcome unit * World :=
  handler env h {| app := s; trace := [] |}.

Definition final `{Platform} (env : Env) (h : Handler) (s : AppState) : AppState :=
  app (snd (run env h s)).

Definition effects `{Platform} (env : Env) (h : Handler) (s : AppState) : list Event :=
  trace (snd (run env h s)).

(* ===================================================================== *)
(** * A reference platform                                               *)
(* ===================================================================== *)

(** An implementation of the JSON builtins after ECMA-262 (sections
    [JSON.parse], [JSON.stringify], [Number::toString]), over UTF-8 text.
    It instantiates [Platform] where a statement is run on concrete data. *)
Module Ref.

Local Open Scope Z_scope.

(** ** Decimal text to binary64 and back *)

(** Whether [N / D >= 2 ^ l], for positive [N] and [D]. *)
Definition ge_pow2 (N D l : Z) : bool :=
  if 0 <=? l then D * 2 ^ l <=? N else D <=? N * 2 ^ (- l).

(** [floor (log2 (N / D))], for positive [N] and [D]. *)
Definition floor_log2 (N D : Z) : Z :=
  let l := Z.log2 N - Z.log2 D in
  if ge_pow2 N D l then l else l - 1.

(** The binary64 value nearest to [N / D] ([0 <= N], [0 < D]), ties to
    even, with the sign [neg]. *)
Definition nearest (neg : bool) (N D : Z) : float :=
  if N =? 0 then (if neg then (-0)%float else 0%float)
  else
    let f := floor_log2 N D in
    if 1023 <? f then (if neg then neg_infinity else infinity)
    else
      let k := Z.max (f - 52) (-1074) in
      let num := if 0 <=? k then N else N * 2 ^ (- k) in
      let den := if 0 <=? k then D * 2 ^ k else D in
      let q := num / den in
      let r := num mod den in
      let q' := if (den <? 2 * r) || ((2 * r =? den) && Z.odd q)
                then q + 1 else q in
      if q' =? 0 then (if neg then (-0)%float else 0%float)
      else if (q' =? 2 ^ 53) && (k =? 971)
           then (if neg then neg_infinity else infinity)
           else SF2Prim (S754_finite neg (Z.to_pos q') k).

(** The binary64 value of the decimal [m * 10 ^ e], [0 <= m]. *)
Definition of_decimal (neg : bool) (m e : Z) : float :=
  if 0 <=? e then nearest neg (m * 10 ^ e) 1 else nearest neg m (10 ^ (- e)).

(** Whether [N / D >= 10 ^ p]. *)
Definition ge_pow10 (N D p : Z) : bool :=
  if 0 <=? p then D * 10 ^ p <=? N else D <=? N * 10 ^ (- p).

Fixpoint climb (fuel : nat) (N D p : Z) : Z :=
  match fuel with
  | O => p
  | S fuel' => if ge_pow10 N D (p + 1) then climb fuel' N D (p + 1) else p
  end.

(** [floor (log10 (N / D))], for positive [N] and [D]. *)
Definition floor_log10 (N D : Z) : Z :=
  climb 6 N D (floor_log2 N D * 30103 / 100000 - 2).

(** The shortest digits of the positive finite [x], whose exact value is
    [N / D]: the least [k] with a [k]-digit [s] and an [n] such that
    [s * 10 ^ (n - k)] reads back as [x], and for that [k] the [s] closest
    to [x].  The result is [(s, k, n)]. *)
Definition candidate (x : float) (N D p k s : Z) : option (Z * Z * Z) :=
  if PrimFloat.eqb (of_decimal false s (p + 1 - k)) x
  then Some (if s =? 10 ^ k then (1, 1, p + 2) else (s, k, p + 1))
  else None.

Fixpoint shortest (fuel : nat) (x : float) (N D p k : Z) : Z * Z * Z :=
  let e := p + 1 - k in
  let num := if 0 <=? e then N else N * 10 ^ (- e) in
  let den := if 0 <=? e then D * 10 ^ e else D in
  let lo := num / den in
  let r := num mod den in
  let pick :=
    match candidate x N D p k lo, candidate x N D p k (lo + 1) with
    | Some a, Some b =>
        if den <? 2 * r then Some b
        else if 2 * r <? den then Some a
        else if Z.even lo then Some a else Some b
    | Some a, None => Some a
    | None, Some b => Some b
    | None, None => None
    end in
  match pick, fuel with
  | Some c, _ => c
  | None, S fuel' => shortest fuel' x N D p (k + 1)
  | None, O => (lo, k, p + 1)
  end.

Definition digits (n : Z) : string := NilZero.string_of_int (Z.to_int n).

Fixpoint zeros (n : nat) : string :=
  match n with
  | O => EmptyString
  | S n' => String "0" (zeros n')
  end.

(** [Number::toString] of a finite non-zero number. *)
Definition Number_toString_finite (x : float) : string :=
  match Prim2SF x with
  | S754_finite neg m e =>
      let N := if 0 <=? e then Z.pos m * 2 ^ e else Z.pos m in
      let D := if 0 <=? e then 1 else 2 ^ (- e) in
      let '(s, k, n) := shortest 17 (abs x) N D (floor_log10 N D) 1 in
      let ds := digits s in
      let sign := if neg then "-"%string else EmptyString in
      let body :=
        if (k <=? n) && (n <=? 21) then
          ds ++ zeros (Z.to_nat (n - k))
        else if (0 <? n) && (n <=? 21) then
          substring 0 (Z.to_nat n) ds ++ "." ++
          substring (Z.to_nat n) (Z.to_nat (k - n)) ds
        else if (-6 <? n) && (n <=? 0) then
          "0." ++ zeros (Z.to_nat (- n)) ++ ds
        else
          let ex := (if 0 <=? n - 1 then "+" else "-") ++ digits (Z.abs (n - 1)) in
          if k =? 1 then ds ++ "e" ++ ex
          else substring 0 1 ds ++ "." ++
               substring 1 (Z.to_nat (k - 1)) ds ++ "e" ++ ex
      in (sign ++ body)%string
  | _ => EmptyString
  end.

(** ** [JSON.parse] *)

Local Open Scope N_scope.

Definition code (a : ascii) : N := N_of_ascii a.

Definition chr (n : N) : ascii := ascii_of_N n.

(** JSON white space: TAB, LF, CR, SP. *)
Fixpoint skip_ws (l : list ascii) : list ascii :=
  match l with
  | a :: r =>
      match code a with
      | 9 | 10 | 13 | 32 => skip_ws r
      | _ => l
      end
  | [] => []
  end.

Definition digit (a : ascii) : option N :=
  let n := code a in
  if (48 <=? n) && (n <=? 57) then Some (n - 48) else None.

Definition hex (a : ascii) : option N :=
  let n := code a in
  if (48 <=? n) && (n <=? 57) then Some (n - 48)
  else if (65 <=? n) && (n <=? 70) then Some (n - 55)
  else if (97 <=? n) && (n <=? 102) then Some (n - 87)
  else None.

Definition hex4 (a b c d : ascii) : option N :=
  match hex a, hex b, hex c, hex d with
  | Some x, Some y, Some z, Some w => Some (((x * 16 + y) * 16 + z) * 16 + w)
  | _, _, _, _ => None
  end.

(** The UTF-8 bytes of a code point; a surrogate that stands alone gets the
    three bytes the same scheme gives it. *)
Definition utf8 (cp : N) : list ascii :=
  if cp <? 128 then [chr cp]
  else if cp <? 2048 then [chr (192 + cp / 64); chr (128 + cp mod 64)]
  else if cp <? 65536 then
    [chr (224 + cp / 4096); chr (128 + (cp / 64) mod 64); chr (128 + cp mod 64)]
  else
    [chr (240 + cp / 262144); chr (128 + (cp / 4096) mod 64);
     chr (128 + (cp / 64) mod 64); chr (128 + cp mod 64)].

Definition is_high (u : N) : bool := (55296 <=? u) && (u <=? 56319).
Definition is_low (u : N) : bool := (56320 <=? u) && (u <=? 57343).

(** The characters of a string literal after its opening quote, up to the
    closing one; [acc] holds the decoded bytes, last first. *)
Fixpoint parse_chars (l : list ascii) (acc : list ascii)
  : option (string * list ascii) :=
  match l with
  | [] => None
  | a :: r =>
      match code a with
      | 34 => Some (string_of_list_ascii (rev acc), r)
      | 92 =>
          match r with
          | [] => None
          | e :: r' =>
              match code e with
              | 34 => parse_chars r' (chr 34 :: acc)
              | 92 => parse_chars r' (chr 92 :: acc)
              | 47 => parse_chars r' (chr 47 :: acc)
              | 98 => parse_chars r' (chr 8 :: acc)
              | 102 => parse_chars r' (chr 12 :: acc)
              | 110 => parse_chars r' (chr 10 :: acc)
              | 114 => parse_chars r' (chr 13 :: acc)
              | 116 => parse_chars r' (chr 9 :: acc)
              | 117 =>
                  match r' with
                  | h1 :: h2 :: h3 :: h4 :: r4 =>
                      match hex4 h1 h2 h3 h4 with
                      | None => None
                      | Some u =>
                          let alone := parse_chars r4 (rev (utf8 u) ++ acc) in
                          if is_high u then
                            match r4 with
                            | b :: v :: g1 :: g2 :: g3 :: g4 :: r10 =>
                                match code b, code v, hex4 g1 g2 g3 g4 with
                                | 92, 117, Some w =>
                                    if is_low w then
                                      parse_chars r10
                                        (rev (utf8 (65536 + (u - 55296) * 1024
                                                    + (w - 56320))) ++ acc)
                                    else alone
                                | _, _, _ => alone
                                end
                            | _ => alone
                            end
                          else alone
                      end
                  | _ => None
                  end
              | _ => None
              end
          end
      | n => if n <? 32 then None else parse_chars r (a :: acc)
      end
  end.

Fixpoint span_digits (l : list ascii) : list N * list ascii :=
  match l with
  | a :: r =>
      match digit a with
      | Some d => let (ds, rest) := span_digits r in (d :: ds, rest)
      | None => ([], l)
      end
  | [] => ([], [])
  end.

Definition number_of (ds : list N) : Z :=
  fold_left (fun acc d => (acc * 10 + Z.of_N d)%Z) ds 0%Z.

(** A JSON number: an optional minus sign; the integer part, [0] or
    digits that do not start with [0]; an optional fraction, a dot and
    digits; an optional exponent, [e] or [E], a sign and digits. *)
Definition parse_number (l : list ascii) : option (float * list ascii) :=
  let (neg, l1) :=
    match l with
    | a :: r => if code a =? 45 then (true, r) else (false, l)
    | [] => (false, l)
    end in
  let (ip, l2) := span_digits l1 in
  match ip with
  | [] => None
  | d :: more =>
      if (d =? 0) && negb (List.length more =? 0)%nat then None
      else
        let frac :=
          match l2 with
          | a :: r =>
              if code a =? 46 then
                match span_digits r with
                | ([], _) => None
                | (fs, l3) => Some (fs, l3)
                end
              else Some ([], l2)
          | [] => Some ([], l2)
          end in
        match frac with
        | None => None
        | Some (fs, l3) =>
            let expo :=
              match l3 with
              | a :: r =>
                  if (code a =? 101) || (code a =? 69) then
                    let (eneg, r1) :=
                      match r with
                      | b :: r' =>
                          if code b =? 45 then (true, r')
                          else if code b =? 43 then (false, r')
                          else (false, r)
                      | [] => (false, r)
                      end in
                    match span_digits r1 with
                    | ([], _) => None
                    | (es, l4) =>
                        Some (if eneg then (- number_of es)%Z else number_of es, l4)
                    end
                  else Some (0%Z, l3)
              | [] => Some (0%Z, l3)
              end in
            match expo with
            | None => None
            | Some (e, l4) =>
                Some (of_decimal neg (number_of (ip ++ fs))
                        (e - Z.of_nat (List.length fs))%Z, l4)
            end
        end
  end.

Fixpoint strip (p l : list ascii) : option (list ascii) :=
  match p, l with
  | [], _ => Some l
  | a :: p', b :: l' => if code a =? code b then strip p' l' else None
  | _ :: _, [] => None
  end.

Definition literal (word : string) (v : value) (l : list ascii)
  : option (value * list ascii) :=
  match strip (list_ascii_of_string word) l with
  | Some r => Some (v, r)
  | None => None
  end.

(** An array index: the canonical decimal text of an integer below
    [2^32 - 1]. *)
Definition array_index (k : string) : option N :=
  match span_digits (list_ascii_of_string k) with
  | (d :: more, []) =>
      if (d =? 0) && negb (List.length more =? 0)%nat then None
      else
        let n := Z.to_N (number_of (d :: more)) in
        if n <? 4294967295 then Some n else None
  | _ => None
  end.

(** [CreateDataProperty]: a key that is present keeps its place and takes
    the new value; a new array index goes among the indices, in ascending
    order; any other new key goes last. *)
Fixpoint define (k : string) (v : value) (props : list (string * value))
  : list (string * value) :=
  match props with
  | [] => [(k, v)]
  | (k', v') :: rest =>
      if (k' =? k)%string then (k, v) :: rest
      else
        let later := (k', v') :: define k v rest in
        match array_index k, array_index k' with
        | Some i, Some j =>
            if (i <? j) && negb (existsb (fun kv => (fst kv =? k)%string) rest)
            then (k, v) :: props else later
        | Some i, None =>
            if existsb (fun kv => (fst kv =? k)%string) rest
            then later else (k, v) :: props
        | None, _ => later
        end
  end.

(** The recursive descent; [fuel] bounds the number of values and
    separators read, and the length of the text is enough. *)
Fixpoint parse_value (fuel : nat) (l : list ascii) {struct fuel}
  : option (value * list ascii) :=
  match fuel with
  | O => None
  | S fuel' =>
      match skip_ws l with
      | [] => None
      | a :: r =>
          match code a with
          | 123 =>
              match skip_ws r with
              | b :: r' =>
                  if code b =? 125 then Some (JObject [], r')
                  else parse_members fuel' (skip_ws r) []
              | [] => None
              end
          | 91 =>
              match skip_ws r with
              | b :: r' =>
                  if code b =? 93 then Some (JArray [], r')
                  else parse_elements fuel' (skip_ws r) []
              | [] => None
              end
          | 34 =>
              match parse_chars r [] with
              | Some (s, rest) => Some (JString s, rest)
              | None => None
              end
          | 116 => literal "true" (JBool true) (a :: r)
          | 102 => literal "false" (JBool false) (a :: r)
          | 110 => literal "null" JNull (a :: r)
          | _ =>
              match parse_number (a :: r) with
              | Some (x, rest) => Some (JNumber x, rest)
              | None => None
              end
          end
      end
  end

with parse_elements (fuel : nat) (l : list ascii) (acc : list value)
  {struct fuel} : option (value * list ascii) :=
  match fuel with
  | O => None
  | S fuel' =>
      match parse_value fuel' l with
      | None => None
      | Some (v, rest) =>
          match skip_ws rest with
          | c :: r =>
              match code c with
              | 44 => parse_elements fuel' r (v :: acc)
              | 93 => Some (JArray (rev (v :: acc)), r)
              | _ => None
              end
          | [] => None
          end
      end
  end

with parse_members (fuel : nat) (l : list ascii) (acc : list (string * value))
  {struct fuel} : option (value * list ascii) :=
  match fuel with
  | O => None
  | S fuel' =>
      match skip_ws l with
      | q :: r =>
          if code q =? 34 then
            match parse_chars r [] with
            | None => None
            | Some (k, rest) =>
                match skip_ws rest with
                | c :: r' =>
                    if code c =? 58 then
                      match parse_value fuel' r' with
                      | None => None
                      | Some (v, rest') =>
                          match skip_ws rest' with
                          | d :: r'' =>
                              match code d with
                              | 44 => parse_members fuel' r'' (define k v acc)
                              | 125 => Some (JObject (define k v acc), r'')
                              | _ => None
                              end
                          | [] => None
                          end
                      end
                    else None
                | [] => None
                end
            end
          else None
      | [] => None
      end
  end.

Definition JSON_parse (s : string) : option value :=
  let l := list_ascii_of_string s in
  match parse_value (2 * S (List.length l)) l with
  | Some (v, rest) =>
      match skip_ws rest with
      | [] => Some v
      | _ :: _ => None
      end
  | None => None
  end.

(** ** [JSON.stringify] *)

Definition hexdigit (n : N) : ascii :=
  if n <? 10 then chr (48 + n) else chr (87 + n).

(** [\uXXXX], in lower case. *)
Definition unicode_escape (u : N) : list ascii :=
  [chr 92; chr 117; hexdigit (u / 4096); hexdigit ((u / 256) mod 16);
   hexdigit ((u / 16) mod 16); hexdigit (u mod 16)].

(** [QuoteJSONString] without the quotes: the two-character escapes,
    [\u00XX] for the other control characters, [\uDXXX] for a surrogate that
    stands alone, and every other character as it is. *)
Fixpoint escape (l : list ascii) : list ascii :=
  match l with
  | [] => []
  | a :: r =>
      match code a with
      | 34 => chr 92 :: chr 34 :: escape r
      | 92 => chr 92 :: chr 92 :: escape r
      | 8 => chr 92 :: chr 98 :: escape r
      | 12 => chr 92 :: chr 102 :: escape r
      | 10 => chr 92 :: chr 110 :: escape r
      | 13 => chr 92 :: chr 114 :: escape r
      | 9 => chr 92 :: chr 116 :: escape r
      | 237 =>
          match r with
          | b :: c :: r' =>
              if (160 <=? code b) && (code b <=? 191)
                 && (128 <=? code c) && (code c <=? 191)
              then unicode_escape
                     (53248 + (code b - 128) * 64 + (code c - 128))
                   ++ escape r'
              else a :: escape r
          | _ => a :: escape r
          end
      | n => if n <? 32 then unicode_escape n ++ escape r else a :: escape r
      end
  end.

Definition quote (s : string) : string :=
  string_of_list_ascii
    (chr 34 :: escape (list_ascii_of_string s) ++ [chr 34]).

(** A number inside JSON text: [null] unless it is finite. *)
Definition number_text (x : float) : string :=
  match Prim2SF x with
  | S754_zero _ => "0"
  | S754_finite _ _ _ => Number_toString_finite x
  | _ => "null"
  end.

Fixpoint join (sep : string) (l : list string) : string :=
  match l with
  | [] => EmptyString
  | [x] => x
  | x :: rest => (x ++ sep ++ join sep rest)%string
  end.

(** [JSON.stringify(v)], without indentation. *)
Fixpoint JSON_stringify (v : value) : string :=
  match v with
  | JNull => "null"
  | JBool b => if b then "true" else "false"
  | JNumber x => number_text x
  | JString s => quote s
  | JArray items => ("[" ++ join "," (map JSON_stringify items) ++ "]")%string
  | JObject props =>
      ("{" ++ join ","
         (map (fun kv : string * value =>
                 (quote (fst kv) ++ ":" ++ JSON_stringify (snd kv))%string)
            props) ++ "}")%string
  end.

(** Text for examples, written with [']: every ['] stands for a double
    quote. *)
Definition dq (s : string) : string :=
  string_of_list_ascii
    (map (fun a => if code a =? 39 then chr 34 else a) (list_ascii_of_string s)).

End Ref.


(* ===================================================================== *)
(** * The vocabulary of the statements                                   *)
(* ===================================================================== *)

Section Settling.

Context {platform : Platform} (env : Env).

(** What the [try] block of a handler gets from its request: the parsed
    body, or what is thrown on the way to it. *)
Definition settle (req : Request) : Thrown + value :=
  match remote env req with
  | inl e => inl e
  | inr r =>
      if ok r then
        match payload r with
        | inl e => inl e
        | inr t =>
            match JSON_parse t with
            | Some data => inr data
            | None => inl SyntaxError
            end
        end
      else
        match payload r with
        | inl e => inl e
        | inr t => inl (Error t)
        end
  end.

(** The request succeeds with [data]: a 2xx response whose body parses. *)
Definition succeeds (req : Request) (data : value) : Prop :=
  exists r t,
    remote env req = inr r /\ ok r = true /\
    payload r = inr t /\ JSON_parse t = Some data.

(** The ways a request fails. *)
Inductive fails (req : Request) : Prop :=
| transport_error (e : Thrown) :
    remote env req = inl e -> fails req
| http_status (r : Response) :
    remote env req = inr r -> ok r = false -> fails req
| unreadable_body (r : Response) (e : Thrown) :
    remote env req = inr r -> ok r = true -> payload r = inl e -> fails req
| unparsable_body (r : Response) (t : string) :
    remote env req = inr r -> ok r = true -> payload r = inr t ->
    JSON_parse t = None -> fails req.

End Settling.

(** The end of a run whose request was caught failing with [e]. *)
Definition caught (p : Panel) (req : Request) (e : Thrown) (message : string)
    (s : AppState) : Outcome unit * World :=
  (Return tt,
   {| app := with_busy None s;
      trace := [PreventDefault; SetBusy (Some p); Fetch req; ConsoleError e;
                Alert message; SetBusy None] |}).

(** The result cell a handler writes. *)
Definition result_of (h : Handler) (s : AppState) : value :=
  match h with
  | SubmitBrain => brainResult s
  | SubmitVision => visionResult s
  | SubmitScribeFile | SubmitScribeText => scribeResult s
  end.

(** The endpoint a handler posts to. *)
Definition path_of (h : Handler) : string :=
  match h with
  | SubmitBrain => "/predict-delay"
  | SubmitVision => "/analyze-image"
  | SubmitScribeFile | SubmitScribeText => "/extract"
  end.

(** The required input of a handler is missing or invalid: the payload text
    does not parse, no file is selected, the text is empty after trimming. *)
Definition missing_or_invalid `{Platform} (h : Handler) (s : AppState) : Prop :=
  match h with
  | SubmitBrain => JSON_parse (brainJson s) = None
  | SubmitVision => visionFileRef s = None
  | SubmitScribeFile => scribeFileRef s = None
  | SubmitScribeText => trim (scribeText s) = ""
  end.

(** The same, with the payload text of the risk panel non-empty. *)
Definition rejected `{Platform} (h : Handler) (s : AppState) : Prop :=
  match h with
  | SubmitBrain => brainJson s <> "" /\ JSON_parse (brainJson s) = None
  | _ => missing_or_invalid h s
  end.

(** The notice a handler shows when its request fails. *)
Definition failure_message (h : Handler) : string :=
  match h with
  | SubmitBrain => "Unable to score the project right now. Check the backend."
  | SubmitVision => "Unable to analyse the image. Please check the backend logs."
  | SubmitScribeFile => "File extraction failed. Check the backend service."
  | SubmitScribeText =>
      "Text extraction failed. Please retry once the backend is ready."
  end.

(** The requests of a trace, in order. *)
Fixpoint requests (t : list Event) : list Request :=
  match t with
  | [] => []
  | Fetch req :: rest => req :: requests rest
  | _ :: rest => requests rest
  end.

(** The notice a handler shows for input it rejects. *)
Definition notice (h : Handler) : list Event :=
  match h with
  | SubmitBrain =>
      [Alert "JSON is invalid. Please fix the payload and try again."]
  | SubmitVision => [Alert "Please choose an image file first."]
  | SubmitScribeFile => [Alert "Please select a PDF or text file."]
  | SubmitScribeText => []
  end.

(** ** Concrete data for the statements below *)

Definition sample_file : File := {| name := "site.png"; contents := "PNG" |}.

(** A state with a file in each input and text in each text area. *)
Definition filled (payload notes : string) : AppState :=
  {| busy := None; brainJson := payload; brainResult := JNull;
     visionResult := JNull; visionOverlay := None; visionFileName := "";
     visionFileRef := Some sample_file; scribeText := notes;
     scribeResult := JNull; scribeFileRef := Some sample_file |}.

(** Remote services that answer every request with [code] and [body]. *)
Definition answering (base : option string) (code : N) (body : string) : Env :=
  {| VITE_API_BASE := base;
     remote := fun _ => inr {| status := code; payload := inr body |} |}.

(** Remote services that cannot be reached. *)
Definition unreachable : Env :=
  {| VITE_API_BASE := None;
     remote := fun _ => inl (TypeError "Failed to fetch") |}.

(** A state with no file selected and no text. *)
Definition blank (payload : string) : AppState := initial payload.

(** The response of the risk service in the specification's scenario. *)
Definition risk_body : string :=
  Ref.dq "{'risk_score':0.73,'risk_band':'High','top_contributors':[{'feature':'Budget','impact':0.21}]}".

Definition risk_data : value :=
  JObject [("risk_score", JNumber 0.73);
           ("risk_band", JString "High");
           ("top_contributors",
            JArray [JObject [("feature", JString "Budget");
                             ("impact", JNumber 0.21)]])].

(** A response of the imagery service with an overlay. *)
Definition imagery_body : string :=
  Ref.dq "{'detections':[],'persons':4,'helmeted_persons':3,'compliance_rate':0.75,'overlay_url':'/overlays/x.png'}".

Definition imagery_data : value :=
  JObject [("detections", JArray []);
           ("persons", JNumber 4);
           ("helmeted_persons", JNumber 3);
           ("compliance_rate", JNumber 0.75);
           ("overlay_url", JString "/overlays/x.png")].

(** The requests the handlers issue from [filled] states when no base URL
    is configured. *)
Definition post_empty_object : Request :=
  {| url := "http://localhost:8000/predict-delay";
     method := "POST";
     headers := [("Content-Type", "application/json")];
     body := TextBody "{}" |}.

Definition post_image (base : string) : Request :=
  {| url := base ++ "/analyze-image";
     method := "POST";
     headers := [];
     body := FormBody [("file", sample_file)] |}.

Definition post_file : Request :=
  {| url := "http://localhost:8000/extract";
     method := "POST";
     headers := [];
     body := FormBody [("file", sample_file)] |}.

Definition post_text (body_text : string) : Request :=
  {| url := "http://localhost:8000/extract";
     method := "POST";
     headers := [("Content-Type", "application/json")];
     body := TextBody body_text |}.

(** A response of the imagery service whose overlay is an object that hides
    [toString]. *)
Definition odd_imagery_body : string :=
  Ref.dq "{'compliance_rate':1,'overlay_url':{'toString':1}}".

Definition odd_imagery_data : value :=
  JObject [("compliance_rate", JNumber 1);
           ("overlay_url", JObject [("toString", JNumber 1)])].

(** A response of the imagery service without an overlay. *)
Definition plain_imagery_body : string :=
  Ref.dq "{'detections':[],'persons':2,'helmeted_persons':1,'compliance_rate':0.5}".

Definition plain_imagery_data : value :=
  JObject [("detections", JArray []);
           ("persons", JNumber 2);
           ("helmeted_persons", JNumber 1);
           ("compliance_rate", JNumber 0.5)].

(* ===================================================================== *)
(** * The view and the session                                           *)
(* ===================================================================== *)

(** ** Builtins of the view *)

(** The digits of [n >= 0] with the last [f] of them behind a decimal
    point, zeros put in front as needed. *)
Definition fixed (f : nat) (n : Z) : string :=
  let m := decimal n in
  let m := Ref.zeros (S f - String.length m) ++ m in
  let k := String.length m in
  match f with
  | O => m
  | _ => substring 0 (k - f) m ++ "." ++ substring (k - f) f m
  end.

(** [x.toFixed(f)] for [0 <= f <= 100]: the integer [n] for which
    [n / 10^f] is closest to the magnitude of [x], the larger one of two,
    printed with [f] decimals behind the sign of [x]; a number that is not
    finite, or of magnitude [10^21] or more, prints as [ToString] prints
    it. *)
Definition toFixed `{Platform} (f : nat) (x : float) : string :=
  match Prim2SF x with
  | S754_zero _ => fixed f 0
  | S754_finite neg m e =>
      let N := (if 0 <=? e then Z.pos m * 2 ^ e else Z.pos m)%Z in
      let D := (if 0 <=? e then 1 else 2 ^ (- e))%Z in
      if (10 ^ 21 * D <=? N)%Z then Number_toString x
      else
        let n := ((2 * N * 10 ^ Z.of_nat f + D) / (2 * D))%Z in
        (if neg then "-" else "") ++ fixed f n
  | _ => Number_toString x
  end.

(** ** The elements [App] builds from its state

    A result of type [option _] is [None] when evaluating the expression
    throws a [TypeError] (a member of [null] or [undefined] is read, or
    something that is no function is called). *)

(** [brainResult ? brainResult.risk_band === "Low" ? "ok"
      : brainResult.risk_band === "Medium" ? "warn" : "bad" : undefined]. *)
Definition brainTone (s : AppState) : option Tone :=
  if truthy (brainResult s) then
    Some match get (brainResult s) "risk_band" with
         | Some (JString band) =>
             if band =? "Low" then tone_ok
             else if band =? "Medium" then tone_warn
             else tone_bad
         | _ => tone_bad
         end
  else None.

(** [v ?? d]. *)
Definition nullish_or (v : option value) (d : value) : value :=
  match v with
  | None | Some JNull => d
  | Some x => x
  end.

(** [(brainResult?.risk_score ?? 0.73).toFixed(2)]: only a number has a
    [toFixed] to call. *)
Definition riskScoreText `{Platform} (s : AppState) : option string :=
  match nullish_or (get (brainResult s) "risk_score") (JNumber 0.73) with
  | JNumber x => Some (toFixed 2 x)
  | _ => None
  end.

(** [brainResult?.risk_band ?? "High"], the child of the summary pill. *)
Definition riskBandChild (s : AppState) : value :=
  nullish_or (get (brainResult s) "risk_band") (JString "High").

(** What [xs?.length ? xs.slice(0, 6).map(row) : null] goes through
    before [row] is applied: nothing to show, the items to show, or a
    [TypeError] because the value has a truthy [length] and no [map]. *)
Inductive Shown : Type :=
| ShowNothing
| ShowItems (items : list value)
| ShowThrows.

Definition first_six (xs : option value) : Shown :=
  match xs with
  | Some (JArray items) =>
      match items with
      | [] => ShowNothing
      | _ => ShowItems (firstn 6 items)
      end
  | Some (JString text) => if text =? "" then ShowNothing else ShowThrows
  | Some (JObject props) =>
      if truthy_opt (assoc "length" props) then ShowThrows else ShowNothing
  | _ => ShowNothing
  end.

(** [items.map(row)], where [row] gets the item and its index. *)
Fixpoint map_rows {A} (row : value -> nat -> option A) (idx : nat)
    (items : list value) : option (list A) :=
  match items with
  | [] => Some []
  | item :: rest =>
      match row item idx with
      | None => None
      | Some r =>
          match map_rows row (S idx) rest with
          | None => None
          | Some rs => Some (r :: rs)
          end
      end
  end.

(** The rows of a list: [None] when building them throws, [Some []] when
    the list is not shown. *)
Definition rows_of {A} (row : value -> nat -> option A) (xs : option value)
  : option (list A) :=
  match first_six xs with
  | ShowNothing => Some []
  | ShowItems items => map_rows row 0 items
  | ShowThrows => None
  end.

(** A row of "Top Contributors": [key={item.feature}], [{item.feature}]
    and [Impact {item.impact.toFixed(3)}]. *)
Record ContributorRow : Type := {
  contributor_key : option value;
  contributor_feature : option value;
  contributor_impact : string
}.

Definition contributorRow `{Platform} (item : value) (idx : nat)
  : option ContributorRow :=
  match item with
  | JNull => None
  | _ =>
      match get item "impact" with
      | Some (JNumber x) =>
          Some {| contributor_key := get item "feature";
                  contributor_feature := get item "feature";
                  contributor_impact := toFixed 3 x |}
      | _ => None
      end
  end.

(** [brainResult?.top_contributors?.length
      ? brainResult.top_contributors.slice(0, 6).map((item) => ...) : null]. *)
Definition contributorRows `{Platform} (s : AppState)
  : option (list ContributorRow) :=
  rows_of contributorRow (get (brainResult s) "top_contributors").

(** [ToString] of a possibly [undefined] value. *)
Definition ToString_opt `{Platform} (v : option value) : option string :=
  match v with
  | Some x => ToString x
  | None => Some "undefined"
  end.

(** A row of "Issues Highlighted": [key={`${issue.type}-${idx}`}],
    [{issue.type}] and [{issue.summary}]. *)
Record IssueRow : Type := {
  issue_key : string;
  issue_type : option value;
  issue_summary : option value
}.

Definition issueRow `{Platform} (issue : value) (idx : nat) : option IssueRow :=
  match issue with
  | JNull => None
  | _ =>
      match ToString_opt (get issue "type") with
      | Some t =>
          Some {| issue_key := t ++ "-" ++ decimal (Z.of_nat idx);
                  issue_type := get issue "type";
                  issue_summary := get issue "summary" |}
      | None => None
      end
  end.

(** [scribeResult?.issues?.length
      ? scribeResult.issues.slice(0, 6).map((issue, idx) => ...) : null]. *)
Definition issueRows `{Platform} (s : AppState) : option (list IssueRow) :=
  rows_of issueRow (get (scribeResult s) "issues").

(** The last character of a string. *)
Fixpoint last_char (s : string) : option ascii :=
  match s with
  | EmptyString => None
  | String a r =>
      match r with
      | EmptyString => Some a
      | _ => last_char r
      end
  end.

(** [visionFileName && <div>Selected: {visionFileName}</div>]. *)
Definition selectedLabel (s : AppState) : option string :=
  if visionFileName s =? "" then None else Some (visionFileName s).

Section Boxes.

(** [JSON.stringify(value, null, 2)], which does not throw on the values
    [JSON.parse] produces. *)
Variable JSON_stringify_2 : value -> string.

(** [function pretty(value)]: the [catch] branch is for a [stringify] that
    throws. *)
Definition pretty (v : value) : string := JSON_stringify_2 v.

(** [ResultBox]: the pretty text of [data] in a [<pre>], or the text
    [empty] in a [<div>]. *)
Inductive Box : Type :=
| Pre (text : string)
| Placeholder (text : string).

Definition ResultBox (data : value) (empty : string) : Box :=
  if truthy data then Pre (pretty data) else Placeholder empty.

End Boxes.

(** ** Input events *)

Definition with_brainJson (v : string) (s : AppState) : AppState :=
  {| busy := busy s; brainJson := v; brainResult := brainResult s;
     visionResult := visionResult s; visionOverlay := visionOverlay s;
     visionFileName := visionFileName s; visionFileRef := visionFileRef s;
     scribeText := scribeText s; scribeResult := scribeResult s;
     scribeFileRef := scribeFileRef s |}.

Definition with_scribeText (v : string) (s : AppState) : AppState :=
  {| busy := busy s; brainJson := brainJson s; brainResult := brainResult s;
     visionResult := visionResult s; visionOverlay := visionOverlay s;
     visionFileName := visionFileName s; visionFileRef := visionFileRef s;
     scribeText := v; scribeResult := scribeResult s;
     scribeFileRef := scribeFileRef s |}.

Definition with_visionFileRef (f : option File) (s : AppState) : AppState :=
  {| busy := busy s; brainJson := brainJson s; brainResult := brainResult s;
     visionResult := visionResult s; visionOverlay := visionOverlay s;
     visionFileName := visionFileName s; visionFileRef := f;
     scribeText := scribeText s; scribeResult := scribeResult s;
     scribeFileRef := scribeFileRef s |}.

Definition with_scribeFileRef (f : option File) (s : AppState) : AppState :=
  {| busy := busy s; brainJson := brainJson s; brainResult := brainResult s;
     visionResult := visionResult s; visionOverlay := visionOverlay s;
     visionFileName := visionFileName s; visionFileRef := visionFileRef s;
     scribeText := scribeText s; scribeResult := scribeResult s;
     scribeFileRef := f |}.

(** What the user does.  A change of a file input puts the chosen file, if
    any, under the ref before the [onChange] handler runs; the extraction
    file input has no such handler. *)
Inductive Action : Type :=
| Submit (h : Handler) (services : Request -> Thrown + Response)
| EditPayload (v : string)
| EditNotes (v : string)
| PickImage (f : option File)
| PickReport (f : option File).

(** The surroundings of one submission: the base URL of the build and the
    remote services as they are when the request is made. *)
Definition serving (base : option string)
    (services : Request -> Thrown + Response) : Env :=
  {| VITE_API_BASE := base; remote := services |}.

(** The state after an action:
    [onChange={(event) => setBrainJson(event.target.value)}],
    [onChange={(event) => setScribeText(event.target.value)}],
    [onChange={(event) => { const file = event.target.files?.[0];
                            setVisionFileName(file ? file.name : ""); }}],
    and the four submit handlers. *)
Definition step `{Platform} (base : option string) (a : Action) (s : AppState)
  : AppState :=
  match a with
  | Submit h services =>
      final (serving base services) h s
  | EditPayload v => with_brainJson v s
  | EditNotes v => with_scribeText v s
  | PickImage f =>
      with_visionFileName (match f with Some file => name file | None => "" end)
        (with_visionFileRef f s)
  | PickReport f => with_scribeFileRef f s
  end.

(** The states a session goes through when every submission has run to
    completion before the next action.  (While a request is in flight the
    page stays interactive; runs that overlap other actions are not
    covered.) *)
Inductive reachable `{Platform} (base : option string) (sample : string)
  : AppState -> Prop :=
| reach_initial : reachable base sample (initial sample)
| reach_step (a : Action) (s : AppState) :
    reachable base sample s -> reachable base sample (step base a s).

(** The notices of a trace, in order. *)
Fixpoint alerts (t : list Event) : list string :=
  match t with
  | [] => []
  | Alert message :: rest => message :: alerts rest
  | _ :: rest => alerts rest
  end.

(** ** [JSON.stringify(value, null, 2)] on the reference platform *)

Definition newline : string := String (Ref.chr 10) "".

(** The text of [v] with members one to a line, two more spaces of
    indentation at each level; [indent] is the indentation [v] stands at. *)
Fixpoint stringify_indented (indent : string) (v : value) : string :=
  let inner := indent ++ "  " in
  let block := fun (opening closing : string) (members : list string) =>
    match members with
    | [] => opening ++ closing
    | _ =>
        opening ++ newline ++ inner
        ++ Ref.join ("," ++ newline ++ inner) members
        ++ newline ++ indent ++ closing
    end in
  match v with
  | JArray items => block "[" "]" (map (stringify_indented inner) items)
  | JObject props =>
      block "{" "}"
        (map (fun kv : string * value =>
                Ref.quote (fst kv) ++ ": " ++ stringify_indented inner (snd kv))
           props)
  | _ => Ref.JSON_stringify v
  end.

Definition Ref_stringify_2 (v : value) : string := stringify_indented "" v.

(** The payload [brainJson] starts with:
    [JSON.stringify({ features: { ... } }, null, 2)]. *)
Definition sample_features : value :=
  JObject
    [("features",
      JObject [("Budget", JNumber 120000000);
               ("Duration_days", JNumber 540);
               ("Complexity", JString "High");
               ("Region", JString "Riyadh");
               ("Contractor_Tier", JString "Tier1");
               ("Buffer_days", JNumber 15)])].

Definition sample_payload : string := Ref_stringify_2 sample_features.

(** A response of the extraction service with issues and an export. *)
Definition scribe_body : string :=
  Ref.dq "{'date':'2025-01-12','personnel_count':42,'issues':[{'type':'Safety','summary':'Two incidents in Zone A'},{'type':'Safety','summary':'Missing harness'}],'low_confidence':false,'export_csv_url':'/exports/r1.csv'}".

Definition scribe_data : value :=
  JObject [("date", JString "2025-01-12");
           ("personnel_count", JNumber 42);
           ("issues",
            JArray [JObject [("type", JString "Safety");
                             ("summary", JString "Two incidents in Zone A")];
                    JObject [("type", JString "Safety");
                             ("summary", JString "Missing harness")]]);
           ("low_confidence", JBool false);
           ("export_csv_url", JString "/exports/r1.csv")].

(** ** The declared shapes of the responses

    The [type] declarations at the head of [App.tsx], as predicates on
    values; a field marked [?] may be absent. *)

Definition optional (p : value -> bool) (o : option value) : bool :=
  match o with
  | Some v => p v
  | None => true
  end.

Definition required (p : value -> bool) (o : option value) : bool :=
  match o with
  | Some v => p v
  | None => false
  end.

Definition is_string (v : value) : bool :=
  match v with JString _ => true | _ => false end.

Definition is_number (v : value) : bool :=
  match v with JNumber _ => true | _ => false end.



Definition is_array_of (p : value -> bool) (v : value) : bool :=
  match v with JArray items => forallb p items | _ => false end.

(** [type RiskContributor = { feature: string; impact: number }]. *)
Definition is_RiskContributor (v : value) : bool :=
  required is_string (get v "feature") && required is_number (get v "impact").

(** [type BrainResponse]. *)
Definition is_BrainResponse (v : value) : bool :=
  required is_number (get v "risk_score")
  && required (fun b => match b with
                        | JString band =>
                            (band =? "Low") || (band =? "Medium") || (band =? "High")
                        | _ => false
                        end) (get v "risk_band")
  && required (is_array_of is_RiskContributor) (get v "top_contributors").

(** [type VisionDetection], with [bbox] a tuple of four numbers. *)
Definition is_VisionDetection (v : value) : bool :=
  required is_string (get v "cls")
  && required (fun b => match b with
                        | JArray [JNumber _; JNumber _; JNumber _; JNumber _] => true
                        | _ => false
                        end) (get v "bbox")
  && required is_number (get v "conf").

(** [type VisionResponse]. *)
Definition is_VisionResponse (v : value) : bool :=
  required (is_array_of is_VisionDetection) (get v "detections")
  && required is_number (get v "persons")
  && required is_number (get v "helmeted_persons")
  && required is_number (get v "compliance_rate")
  && optional is_string (get v "overlay_url").



(** What the risk handler posts from the payload the page starts with: the
    compact text of the sample, not the indented text of the text area. *)
Definition post_sample : Request :=
  {| url := "http://localhost:8000/predict-delay";
     method := "POST";
     headers := [("Content-Type", "application/json")];
     body :=
       TextBody
         (Ref.dq "{'features':{'Budget':120000000,'Duration_days':540,'Complexity':'High','Region':'Riyadh','Contractor_Tier':'Tier1','Buffer_days':15}}") |}.

(** The risk response of the specification's scenario, stored. *)
Definition scored : AppState := with_brainResult risk_data (filled "" "").

(** An extraction with two issues of the same type, stored. *)
Definition extracted : AppState := with_scribeResult scribe_data (filled "" "").

Definition extracted_rows : list IssueRow :=
  [{| issue_key := "Safety-0";
      issue_type := Some (JString "Safety");
      issue_summary := Some (JString "Two incidents in Zone A") |};
   {| issue_key := "Safety-1";
      issue_type := Some (JString "Safety");
      issue_summary := Some (JString "Missing harness") |}].

(* ===================================================================== *)
(** * The reference platform satisfies the interface                     *)
(* ===================================================================== *)

Module RefFacts.

Import Ref.
Local Open Scope list_scope.

Lemma scalar_tail (a : ascii) (r : list ascii) :
  scalar (a :: r) = true -> scalar r = true.
Proof.
  destruct r as [| b r']; [reflexivity |].
  cbn [scalar]. intros H. apply andb_prop in H. apply H.
Qed.

(** Without a lone surrogate behind it, the byte [ED] is copied. *)
Lemma escape_237 (r : list ascii) :
  scalar ("237"%char :: r) = true ->
  escape ("237"%char :: r) = "237"%char :: escape r.
Proof.
  destruct r as [| b [| c r']]; try reflexivity.
  intros Hs. cbn [scalar] in Hs. apply andb_prop in Hs. destruct Hs as [Hb _].
  apply negb_true_iff in Hb. cbn in Hb.
  change (escape ("237"%char :: b :: c :: r'))
    with (if ((160 <=? code b) && (code b <=? 191)
              && (128 <=? code c) && (code c <=? 191))%N
          then unicode_escape (53248 + (code b - 128) * 64 + (code c - 128))%N
               ++ escape r'
          else "237"%char :: escape (b :: c :: r')).
  unfold code. rewrite Hb. reflexivity.
Qed.

(** Reading an escaped text up to its closing quote gives the text back. *)
Lemma parse_chars_escape (l : list ascii) :
  forall acc rest,
    scalar l = true ->
    parse_chars (escape l ++ chr 34 :: rest) acc
    = Some (string_of_list_ascii (rev acc ++ l), rest).
Proof.
  induction l as [| a r IH]; intros acc rest Hs.
  - cbn. rewrite app_nil_r. reflexivity.
  - pose proof (scalar_tail _ _ Hs) as Hr.
    assert (Hnext : forall acc',
               parse_chars (escape r ++ chr 34 :: rest) (a :: acc')
               = Some (string_of_list_ascii (rev acc' ++ a :: r), rest)).
    { intros acc'. rewrite (IH _ _ Hr). cbn [rev].
      rewrite <- app_assoc. reflexivity. }
    destruct a as [[] [] [] [] [] [] [] []].
    all: try (cbn; apply Hnext).
    rewrite (escape_237 _ Hs). cbn. apply Hnext.
Qed.

Lemma chars_append (a b : string) :
  list_ascii_of_string (a ++ b)
  = list_ascii_of_string a ++ list_ascii_of_string b.
Proof. induction a as [| c a IH]; cbn; [| rewrite IH]; reflexivity. Qed.

Lemma quote_chars (s : string) :
  list_ascii_of_string (quote s)
  = chr 34 :: escape (list_ascii_of_string s) ++ [chr 34].
Proof. unfold quote. apply list_ascii_of_string_of_list_ascii. Qed.

(** The characters of the text of an object with one string field. *)
Lemma field_chars (k t : string) :
  list_ascii_of_string (Ref.JSON_stringify (JObject [(k, JString t)]))
  = "{"%char :: chr 34 :: escape (list_ascii_of_string k)
    ++ chr 34 :: ":"%char :: chr 34 :: escape (list_ascii_of_string t)
    ++ [chr 34; "}"%char].
Proof.
  cbn [Ref.JSON_stringify map join fst snd].
  rewrite !chars_append, !quote_chars. cbn [list_ascii_of_string].
  repeat (progress cbn [Datatypes.app] || rewrite <- app_assoc). reflexivity.
Qed.

Lemma parse_field (f : nat) (lk lt : list ascii) :
  scalar lk = true -> scalar lt = true ->
  parse_value (S (S (S f)))
    ("{"%char :: chr 34 :: escape lk
     ++ chr 34 :: ":"%char :: chr 34 :: escape lt ++ [chr 34; "}"%char])
  = Some (JObject [(string_of_list_ascii lk, JString (string_of_list_ascii lt))],
          []).
Proof.
  intros Hk Ht.
  cbn. rewrite (parse_chars_escape lk [] _ Hk).
  cbn. rewrite (parse_chars_escape lt [] _ Ht).
  reflexivity.
Qed.

Lemma fuel_4 (n : nat) : (2 * S (S n) = S (S (S (S (2 * n)))))%nat.
Proof. lia. Qed.

(** An object with one string field reads back from its text. *)
Lemma parse_stringify_field (k t : string) :
  scalar_text k = true -> scalar_text t = true ->
  Ref.JSON_parse (Ref.JSON_stringify (JObject [(k, JString t)]))
  = Some (JObject [(k, JString t)]).
Proof.
  intros Hk Ht. unfold Ref.JSON_parse. rewrite field_chars.
  cbn [List.length]. rewrite fuel_4.
  rewrite (parse_field _ _ _ Hk Ht).
  cbn [skip_ws]. rewrite !string_of_list_ascii_of_string. reflexivity.
Qed.

End RefFacts.

(** The reference platform: the first three laws hold by running the parser
    and the printer. *)
Definition RefPlatform : Platform :=
  {| JSON_parse := Ref.JSON_parse;
     JSON_stringify := Ref.JSON_stringify;
     Number_toString_frac := Ref.Number_toString_finite;
     JSON_parse_empty_text := eq_refl;
     JSON_parse_empty_object := eq_refl;
     JSON_stringify_empty_object := eq_refl;
     JSON_parse_stringify_field := RefFacts.parse_stringify_field |}.

(** A session: an image is picked and analysed, the services answering with
    [imagery_body]. *)
Definition analysed : AppState :=
  @step RefPlatform None
    (Submit SubmitVision
       (fun _ => inr {| status := 200; payload := inr imagery_body |}))
    (@step RefPlatform None (PickImage (Some sample_file))
       (initial sample_payload)).

(* ===================================================================== *)
(** * The reference platform at work                                     *)
(* ===================================================================== *)

Example escapes_parse :
  Ref.JSON_parse (Ref.dq "['a\tbA\/', '\ud83d\ude00', 1.5e3, -0.25, true, null]")
  = Some (JArray [JString (String "a" (String (Ref.chr 9) "bA/"));
                  JString (string_of_list_ascii
                             (map Ref.chr [240; 159; 152; 128]%N));
                  JNumber 1500; JNumber (-0.25); JBool true; JNull]).
Proof. vm_compute. reflexivity. Qed.

Example malformed_texts :
  map Ref.JSON_parse
    [""; "{"; "[1,]"; "01"; "1."; "tru"; "{a:1}"; Ref.dq "{'a':1,}"; "1 2"]
  = [None; None; None; None; None; None; None; None; None].
Proof. vm_compute. reflexivity. Qed.

Example duplicate_and_index_keys :
  Ref.JSON_parse (Ref.dq "{'b':1,'1':2,'a':3,'0':4,'b':5}")
  = Some (JObject [("0", JNumber 4); ("1", JNumber 2);
                   ("b", JNumber 5); ("a", JNumber 3)]).
Proof. vm_compute. reflexivity. Qed.

Example numbers_print :
  map Ref.number_text
    [0.1; 0.73; 1e21; 1.5e-7; 0.000001; 123456789012345680000; 5e-324;
     100.49999999999999; -3.75; 95; infinity]%float
  = ["0.1"; "0.73"; "1e+21"; "1.5e-7"; "0.000001"; "123456789012345680000";
     "5e-324"; "100.49999999999999"; "-3.75"; "95"; "null"].
Proof. vm_compute. reflexivity. Qed.

Example risk_body_parses : Ref.JSON_parse risk_body = Some risk_data.
Proof. vm_compute. reflexivity. Qed.

Example imagery_body_parses : Ref.JSON_parse imagery_body = Some imagery_data.
Proof. vm_compute. reflexivity. Qed.

Example risk_data_prints : Ref.JSON_stringify risk_data = risk_body.
Proof. vm_compute. reflexivity. Qed.

Example trim_white_space :
  trim "  Crew: 42  " = "Crew: 42" /\ trim "   " = "" /\ trim "" = "".
Proof. repeat split. Qed.

Example trim_unicode_white_space :
  trim (string_of_list_ascii
          (map Ref.chr [9; 194; 160; 226; 128; 131; 110; 239; 187; 191; 10]%N))
  = "n".
Proof. reflexivity. Qed.

Example round_half_up :
  Math_round 2.5%float = 3%float /\ Math_round (-2.5)%float = (-2)%float /\
  Math_round 0.49999999999999994%float = 0%float.
Proof. repeat split; apply Prim2SF_inj; vm_compute; reflexivity. Qed.

(* ===================================================================== *)
(** * How a request settles                                              *)
(* ===================================================================== *)

Section Settled.

Context {platform : Platform} (env : Env).

Lemma succeeds_settle (req : Request) (data : value) :
  succeeds env req data <-> settle env req = inr data.
Proof.
  unfold succeeds, settle. split.
  - intros (r & t & -> & -> & -> & ->). reflexivity.
  - destruct (remote env req) as [e | r]; [discriminate |].
    destruct (ok r) eqn:Hok; destruct (payload r) as [e | t] eqn:Hp;
      try discriminate.
    destruct (JSON_parse t) as [d |] eqn:Hj; [| discriminate].
    intros [= <-]. exists r, t. auto.
Qed.

Lemma fails_settle (req : Request) :
  fails env req <-> exists e, settle env req = inl e.
Proof.
  unfold settle. split.
  - intros [e H | r H Hok | r e H Hok Hp | r t H Hok Hp Hj];
      rewrite H; try rewrite Hok; try rewrite Hp; try rewrite Hj; eauto.
    destruct (payload r); eauto.
  - destruct (remote env req) as [e | r] eqn:H.
    + intros _. eapply transport_error; eauto.
    + destruct (ok r) eqn:Hok.
      * destruct (payload r) as [e | t] eqn:Hp.
        -- intros _. eapply unreadable_body; eauto.
        -- destruct (JSON_parse t) eqn:Hj.
           ++ intros [e He]. discriminate.
           ++ intros _. eapply unparsable_body; eauto.
      * intros _. eapply http_status; eauto.
Qed.

(** The shared shape of the four [try] blocks: issue the request, check the
    status, parse the body, hand the data to [k]. *)
Lemma attempt (req : Request) (k : value -> M unit) (message : string)
    (w : World) :
  try_catch_finally
    (response <- fetch env req ;;
     check_ok response ;;
     data <- json response ;;
     k data)
    (fun error => console_error error ;; alert message)
    (setBusy None) w
  = let w1 := {| app := app w; trace := trace w ++ [Fetch req] |} in
    let caught := fun (e : Thrown) (w' : World) =>
      (Return tt,
       {| app := with_busy None (app w');
          trace := ((trace w' ++ [ConsoleError e]) ++ [Alert message])
                   ++ [SetBusy None] |}) in
    match settle env req with
    | inr data =>
        match k data w1 with
        | (Return u, w2) =>
            (Return u,
             {| app := with_busy None (app w2);
                trace := trace w2 ++ [SetBusy None] |})
        | (Throw e, w2) => caught e w2
        end
    | inl e => caught e w1
    end.
Proof.
  unfold try_catch_finally, fetch, check_ok, json, text, settle, bind, emit,
    throw, ret, console_error, alert, setBusy, update.
  cbn.
  destruct (remote env req) as [e | r]; cbn; [reflexivity |].
  destruct (ok r); cbn.
  - destruct (payload r) as [e | t]; cbn; [reflexivity |].
    destruct (JSON_parse t) as [d |]; cbn; [| reflexivity].
    destruct (k d _) as [[u | e] w2]; reflexivity.
  - destruct (payload r) as [e | t]; reflexivity.
Qed.

End Settled.

(* ===================================================================== *)
(** * The four handlers, path by path                                    *)
(* ===================================================================== *)

Section Paths.

Context {platform : Platform} (env : Env).

Ltac open_handler :=
  unfold run, handler, submitBrain, submitVision, submitScribeFile,
    submitScribeText;
  unfold bind at 1 2; unfold preventDefault, state, emit at 1; cbn [app trace].

Ltac step_setters :=
  unfold setBrainResult, setVisionResult, setVisionOverlay,
    setVisionFileName, setScribeResult, setBusy, resolve, bind, emit, update,
    throw, ret;
  cbn.

Lemma submitBrain_run (s : AppState) :
  run env SubmitBrain s =
  match JSON_parse (str_or (brainJson s) "{}") with
  | None =>
      (Return tt,
       {| app := s;
          trace := [PreventDefault;
                    Alert "JSON is invalid. Please fix the payload and try again."] |})
  | Some payload =>
      let req := {| url := API_BASE env ++ "/predict-delay";
                    method := "POST";
                    headers := [("Content-Type", "application/json")];
                    body := TextBody (JSON_stringify payload) |} in
      match settle env req with
      | inr data =>
          (Return tt,
           {| app := with_busy None (with_brainResult data s);
              trace := [PreventDefault; SetBusy (Some brain); Fetch req;
                        SetBrainResult data; SetBusy None] |})
      | inl e =>
          caught brain req e
            "Unable to score the project right now. Check the backend." s
      end
  end.
Proof.
  open_handler.
  destruct (JSON_parse (str_or (brainJson s) "{}")) as [p |]; [| reflexivity].
  unfold bind at 1. unfold setBusy at 1, bind at 1, emit at 1, update at 1.
  cbn [app trace]. rewrite attempt. cbn zeta.
  destruct (settle env _) as [e | data]; [reflexivity |].
  step_setters. reflexivity.
Qed.

Lemma submitVision_run (s : AppState) :
  run env SubmitVision s =
  match visionFileRef s with
  | None =>
      (Return tt,
       {| app := s;
          trace := [PreventDefault; Alert "Please choose an image file first."] |})
  | Some file =>
      let req := {| url := API_BASE env ++ "/analyze-image";
                    method := "POST";
                    headers := [];
                    body := FormBody [("file", file)] |} in
      let message :=
        "Unable to analyse the image. Please check the backend logs." in
      match settle env req with
      | inr data =>
          let done := fun overlay : option string =>
            (Return tt,
             {| app := with_busy None
                         (with_visionFileName (name file)
                            (with_visionOverlay overlay
                               (with_visionResult data s)));
                trace := [PreventDefault; SetBusy (Some vision); Fetch req;
                          SetVisionResult data; SetVisionOverlay overlay;
                          SetVisionFileName (name file); SetBusy None] |}) in
          match get data "overlay_url" with
          | None => done None
          | Some u =>
              if truthy u then
                match ToString u with
                | Some path => done (Some (API_BASE env ++ path))
                | None =>
                    (Return tt,
                     {| app := with_busy None (with_visionResult data s);
                        trace := [PreventDefault; SetBusy (Some vision);
                                  Fetch req; SetVisionResult data;
                                  ConsoleError
                                    (TypeError
                                       "Cannot convert object to primitive value");
                                  Alert message; SetBusy None] |})
                end
              else done None
          end
      | inl e => caught vision req e message s
      end
  end.
Proof.
  open_handler.
  destruct (visionFileRef s) as [file |]; [| reflexivity].
  unfold bind at 1. unfold setBusy at 1, bind at 1, emit at 1, update at 1.
  cbn [app trace]. rewrite attempt. cbn zeta.
  destruct (settle env _) as [e | data]; [reflexivity |].
  step_setters.
  destruct (get data "overlay_url") as [u |]; cbn; [| reflexivity].
  destruct (truthy u); cbn; [| reflexivity].
  destruct (ToString u); reflexivity.
Qed.

Lemma submitScribeFile_run (s : AppState) :
  run env SubmitScribeFile s =
  match scribeFileRef s with
  | None =>
      (Return tt,
       {| app := s;
          trace := [PreventDefault; Alert "Please select a PDF or text file."] |})
  | Some file =>
      let req := {| url := API_BASE env ++ "/extract";
                    method := "POST";
                    headers := [];
                    body := FormBody [("file", file)] |} in
      match settle env req with
      | inr data =>
          (Return tt,
           {| app := with_busy None (with_scribeResult data s);
              trace := [PreventDefault; SetBusy (Some scribe); Fetch req;
                        SetScribeResult data; SetBusy None] |})
      | inl e =>
          caught scribe req e
            "File extraction failed. Check the backend service." s
      end
  end.
Proof.
  open_handler.
  destruct (scribeFileRef s) as [file |]; [| reflexivity].
  unfold bind at 1. unfold setBusy at 1, bind at 1, emit at 1, update at 1.
  cbn [app trace]. rewrite attempt. cbn zeta.
  destruct (settle env _) as [e | data]; [reflexivity |].
  step_setters. reflexivity.
Qed.

Lemma submitScribeText_run (s : AppState) :
  run env SubmitScribeText s =
  if trim (scribeText s) =? "" then
    (Return tt, {| app := s; trace := [PreventDefault] |})
  else
    let req := {| url := API_BASE env ++ "/extract";
                  method := "POST";
                  headers := [("Content-Type", "application/json")];
                  body := TextBody
                            (JSON_stringify
                               (JObject [("text", JString (scribeText s))])) |} in
    match settle env req with
    | inr data =>
        (Return tt,
         {| app := with_busy None (with_scribeResult data s);
            trace := [PreventDefault; SetBusy (Some scribe); Fetch req;
                      SetScribeResult data; SetBusy None] |})
    | inl e =>
        caught scribe req e
          "Text extraction failed. Please retry once the backend is ready." s
    end.
Proof.
  open_handler.
  destruct (trim (scribeText s) =? "")%string; [reflexivity |].
  unfold bind at 1. unfold setBusy at 1, bind at 1, emit at 1, update at 1.
  cbn [app trace]. rewrite attempt. cbn zeta.
  destruct (settle env _) as [e | data]; [reflexivity |].
  step_setters. reflexivity.
Qed.

End Paths.

(* ===================================================================== *)
(** * The claims                                                         *)
(* ===================================================================== *)

Section Claims.

Context {platform : Platform} (env : Env).

Lemma str_or_nonempty (s d : string) : s <> "" -> str_or s d = s.
Proof.
  intros Hs. unfold str_or. destruct (String.eqb_spec s ""); congruence.
Qed.

(** Rejected input ends the run at once: the trace is the default
    prevention and the handler's notice, and the state is untouched. *)
Lemma rejected_run (h : Handler) (s : AppState) :
  rejected h s ->
  run env h s = (Return tt, {| app := s; trace := PreventDefault :: notice h |}).
Proof.
  destruct h; cbn [rejected missing_or_invalid notice].
  - intros [Hne Hp]. rewrite submitBrain_run, str_or_nonempty, Hp; auto.
  - intros H. rewrite submitVision_run, H. reflexivity.
  - intros H. rewrite submitScribeFile_run, H. reflexivity.
  - intros H. rewrite submitScribeText_run, H. reflexivity.
Qed.

(** Every request settles: it succeeds with some data or it fails. *)
Lemma settles (req : Request) :
  (exists data, succeeds env req data) \/ fails env req.
Proof.
  destruct (settle env req) as [e | data] eqn:H.
  - right. apply fails_settle. eauto.
  - left. exists data. apply succeeds_settle. exact H.
Qed.

(** Case analysis of a run along the paths of its handler. *)
Ltac paths h s :=
  unfold final, effects in *;
  destruct h;
  [ rewrite (submitBrain_run env s) in *;
    destruct (JSON_parse (str_or (brainJson s) "{}")) eqn:?
  | rewrite (submitVision_run env s) in *;
    destruct (visionFileRef s) eqn:?
  | rewrite (submitScribeFile_run env s) in *;
    destruct (scribeFileRef s) eqn:?
  | rewrite (submitScribeText_run env s) in *;
    destruct (trim (scribeText s) =? "")%string eqn:? ];
  cbn zeta in *;
  try match goal with
      | H : context [match settle env ?r with _ => _ end] |- _ =>
          destruct (settle env r) eqn:?
      | |- context [match settle env ?r with _ => _ end] =>
          destruct (settle env r) eqn:?
      end;
  try match goal with
      | H : context [match get ?d "overlay_url" with _ => _ end] |- _ =>
          destruct (get d "overlay_url") as [?u |] eqn:?;
          [ destruct (truthy u) eqn:?; [ destruct (ToString u) eqn:? | ] | ]
      | |- context [match get ?d "overlay_url" with _ => _ end] =>
          destruct (get d "overlay_url") as [?u |] eqn:?;
          [ destruct (truthy u) eqn:?; [ destruct (ToString u) eqn:? | ] | ]
      end;
  unfold caught in *; cbn [fst snd app trace] in *.

(** The request found in a trace is the one whose settling is known. *)
Ltac issued :=
  repeat match goal with
         | H : In _ _ |- _ => cbn [In] in H
         | H : _ \/ _ |- _ => destruct H
         | H : False |- _ => destruct H
         | H : @eq Event _ _ |- _ => first [ discriminate H | injection H as <- ]
         end.

(** C1, as amended.  When a handler rejects its input (risk payload text
    that is not empty and fails to parse, no file selected for the imagery
    or the extraction file path, text that is empty or white space only for
    the extraction text path), it returns normally and issues no network
    call, and the state afterwards is the state before: neither the busy
    flag nor any stored result changes. *)
Theorem rejected_input_aborts (h : Handler) (s : AppState) :
  rejected h s ->
  fst (run env h s) = Return tt /\
  final env h s = s /\
  (forall req, ~ In (Fetch req) (effects env h s)) /\
  busy (final env h s) = busy s /\
  result_of h (final env h s) = result_of h s.
Proof.
  intros Hr. unfold final, effects. rewrite (rejected_run h s Hr).
  cbn [fst snd app trace]. repeat split; try reflexivity.
  intros req Hin. destruct h; cbn in Hin; issued.
Qed.

(** C2.  A handler that begins a request, that is, one whose trace sets the
    busy flag to its panel, returns normally with the busy flag idle, and
    clearing the flag is the last thing it does.  This holds however the
    remote side behaves: by [settles] the request either succeeds or fails
    with a transport error, a non-2xx status or a body that cannot be read
    or parsed, and [env] ranges over all of these. *)
Theorem busy_cleared_on_completion (h : Handler) (s : AppState) :
  In (SetBusy (Some (panel_of h))) (effects env h s) ->
  fst (run env h s) = Return tt /\
  busy (final env h s) = None /\
  last (effects env h s) PreventDefault = SetBusy None.
Proof.
  intros Hin. paths h s; issued; repeat split; reflexivity.
Qed.

(** C3.  When the request a handler issued fails (transport error, non-2xx
    status, or a body that cannot be read or parsed), the handler's stored
    result is what it was before the submission and the busy flag is idle
    again; in fact nothing but the busy flag differs from the state before. *)
Theorem failure_keeps_result (h : Handler) (s : AppState) (req : Request) :
  In (Fetch req) (effects env h s) ->
  fails env req ->
  result_of h (final env h s) = result_of h s /\
  busy (final env h s) = None /\
  final env h s = with_busy None s.
Proof.
  intros Hin Hf. apply fails_settle in Hf as [e He].
  paths h s; issued; try congruence; repeat split; reflexivity.
Qed.

(** C4.  When the request a handler issued succeeds with [data] (a 2xx
    response whose body parses to [data]), the handler's result cell holds
    exactly [data] afterwards, whatever it held before, and the setter was
    called with [data] itself. *)
Theorem success_replaces_result (h : Handler) (s : AppState) (req : Request)
    (data : value) :
  In (Fetch req) (effects env h s) ->
  succeeds env req data ->
  result_of h (final env h s) = data /\
  In (match h with
      | SubmitBrain => SetBrainResult data
      | SubmitVision => SetVisionResult data
      | SubmitScribeFile | SubmitScribeText => SetScribeResult data
      end) (effects env h s).
Proof.
  intros Hin Hs. apply succeeds_settle in Hs.
  paths h s; issued; try congruence;
    match goal with
    | H1 : settle env ?r = inr ?d, H2 : settle env ?r = inr data |- _ =>
        rewrite H1 in H2; injection H2 as ->
    end;
    cbn; auto 10.
Qed.

Lemma append_nonempty (a b : string) : b <> "" -> (a ++ b =? "") = false.
Proof.
  intros Hb. destruct a; cbn; [| reflexivity].
  destruct (String.eqb_spec b ""); [contradiction | reflexivity].
Qed.

(** C6.  After a successful imagery response: when its [overlay_url] is a
    non-empty string [path], the stored overlay is [API_BASE] followed by
    [path] and the overlay box shows the image at that address; when the
    response has no [overlay_url], the stored overlay is set to [null] and
    the box shows no image. *)
Theorem overlay_resolved (s : AppState) (req : Request) (data : value) :
  In (Fetch req) (effects env SubmitVision s) ->
  succeeds env req data ->
  (forall path,
     get data "overlay_url" = Some (JString path) -> path <> "" ->
     visionOverlay (final env SubmitVision s) = Some (API_BASE env ++ path) /\
     overlayBox (final env SubmitVision s) = OverlayImage (API_BASE env ++ path)) /\
  (get data "overlay_url" = None ->
     visionOverlay (final env SubmitVision s) = None /\
     In (SetVisionOverlay None) (effects env SubmitVision s) /\
     overlayBox (final env SubmitVision s) = NoOverlayYet).
Proof.
  intros Hin Hs. apply succeeds_settle in Hs.
  unfold final, effects in *. rewrite submitVision_run in *.
  destruct (visionFileRef s) as [file |]; [| cbn in Hin; issued].
  cbn zeta in *.
  assert (Hreq : settle env
                   {| url := API_BASE env ++ "/analyze-image"; method := "POST";
                      headers := []; body := FormBody [("file", file)] |}
                 = inr data).
  { destruct (settle env _) eqn:E in Hin; unfold caught in Hin;
      cbn in Hin; issued; try congruence.
    all: repeat match goal with
                | H : context [match ?x with _ => _ end] |- _ => destruct x
                end; cbn in *; issued; assumption. }
  rewrite Hreq. split.
  - intros path Hg Hne. rewrite Hg. cbn [truthy ToString].
    destruct (String.eqb_spec path ""); [contradiction |]. cbn.
    unfold overlayBox. cbn. rewrite append_nonempty by assumption. auto.
  - intros Hg. rewrite Hg. cbn. auto 10.
Qed.

(** C7, as amended.  The risk handler (payload text that is not empty and
    fails to parse), the imagery handler and the extraction file handler (no
    file selected) report the rejected input with one [alert] and do nothing
    after it.  The extraction text handler, given text that is empty or
    white space only, returns without any notice; its submit button is
    disabled for such text. *)
Theorem rejected_input_notice (h : Handler) (s : AppState) :
  rejected h s ->
  match h with
  | SubmitBrain =>
      effects env h s =
      [PreventDefault;
       Alert "JSON is invalid. Please fix the payload and try again."]
  | SubmitVision =>
      effects env h s =
      [PreventDefault; Alert "Please choose an image file first."]
  | SubmitScribeFile =>
      effects env h s =
      [PreventDefault; Alert "Please select a PDF or text file."]
  | SubmitScribeText =>
      effects env h s = [PreventDefault] /\ disabled h s = true
  end.
Proof.
  intros Hr. unfold effects. rewrite (rejected_run h s Hr).
  destruct h; cbn; try reflexivity.
  split; [reflexivity |]. cbn in Hr. rewrite Hr. apply orb_true_r.
Qed.

Lemma resolve_string (path : string) (w : World) :
  path <> "" ->
  resolve env (Some (JString path)) w = (Return (Some (API_BASE env ++ path)), w).
Proof.
  intros Hne. unfold resolve. cbn.
  destruct (String.eqb_spec path ""); [contradiction | reflexivity].
Qed.

Lemma resolve_cases (ref : option value) (w : World) :
  (exists path, resolve env ref w = (Return (Some (API_BASE env ++ path)), w)
                /\ exists u, ref = Some u /\ ToString u = Some path)
  \/ resolve env ref w = (Return None, w)
  \/ exists e, resolve env ref w = (Throw e, w).
Proof.
  unfold resolve. destruct ref as [u |]; cbn; [| auto].
  destruct (truthy u); [| auto].
  destruct (ToString u) as [path |] eqn:Hs.
  - left. exists path. split; [reflexivity | eauto].
  - right. right. eexists. reflexivity.
Qed.

(** C8.  One value, [API_BASE], is the base of everything the component
    addresses: every request a handler issues goes to [API_BASE] followed by
    the handler's endpoint; every overlay a handler stores, and the [href]
    of the export link, is [API_BASE] followed by a path.  [API_BASE] is
    the configured [VITE_API_BASE] when that is set (and not empty), and
    [http://localhost:8000] when it is absent (or empty). *)
Theorem single_base_url :
  (forall h s req,
     In (Fetch req) (effects env h s) -> url req = API_BASE env ++ path_of h) /\
  (forall h s overlay,
     In (SetVisionOverlay (Some overlay)) (effects env h s) ->
     exists path, overlay = API_BASE env ++ path) /\
  (forall s path,
     get (scribeResult s) "export_csv_url" = Some (JString path) ->
     path <> "" ->
     exportLink env s = Return (Some (API_BASE env ++ path))) /\
  (forall s href,
     exportLink env s = Return (Some href) ->
     exists path, href = API_BASE env ++ path) /\
  (forall base,
     VITE_API_BASE env = Some base -> base <> "" -> API_BASE env = base) /\
  (VITE_API_BASE env = None \/ VITE_API_BASE env = Some "" ->
   API_BASE env = "http://localhost:8000").
Proof.
  repeat split.
  - intros h s req Hin. paths h s; issued; reflexivity.
  - intros h s overlay Hin. paths h s; issued; eauto.
  - intros s path Hg Hne. unfold exportLink. rewrite Hg, resolve_string; auto.
  - intros s href. unfold exportLink.
    destruct (resolve_cases (get (scribeResult s) "export_csv_url")
                {| app := s; trace := [] |})
      as [(path & -> & _) | [-> | (e & ->)]]; cbn; intros [= <-]; eauto.
  - intros base Hb Hne. unfold API_BASE. rewrite Hb.
    apply str_or_nonempty, Hne.
  - intros [Hb | Hb]; unfold API_BASE; rewrite Hb; reflexivity.
Qed.

(** C9.  With an empty payload text the risk handler parses ["{}"] in its
    place, which is the empty object; it shows no notice about invalid JSON,
    marks the panel busy and posts ["{}"], the text of the empty object, to
    [/predict-delay]. *)
Theorem empty_payload_is_posted (s : AppState) :
  brainJson s = "" ->
  JSON_parse (str_or (brainJson s) "{}") = Some (JObject []) /\
  (exists rest,
     effects env SubmitBrain s =
     PreventDefault :: SetBusy (Some brain)
     :: Fetch {| url := API_BASE env ++ "/predict-delay";
                 method := "POST";
                 headers := [("Content-Type", "application/json")];
                 body := TextBody "{}" |}
     :: rest) /\
  ~ In (Alert "JSON is invalid. Please fix the payload and try again.")
       (effects env SubmitBrain s).
Proof.
  intros He.
  assert (Hp : JSON_parse (str_or (brainJson s) "{}") = Some (JObject [])).
  { rewrite He. cbn. apply JSON_parse_empty_object. }
  split; [exact Hp |].
  unfold effects. rewrite submitBrain_run, Hp. cbn zeta.
  rewrite JSON_stringify_empty_object.
  destruct (settle env _); cbn; (split; [eauto |]); intros Hin; issued.
Qed.

(** C10.  For text that is not empty after trimming, the extraction text
    handler posts the JSON text of the object whose one field [text] is the
    content of the text area as it stands: [trim] decides whether to submit
    and nowhere enters the body.  Read as JSON, the body that reaches the
    network is the object whose [text] is that content, white space at
    either end included. *)
Theorem text_is_posted_untrimmed (s : AppState) :
  trim (scribeText s) <> "" ->
  (exists rest,
     effects env SubmitScribeText s =
     PreventDefault :: SetBusy (Some scribe)
     :: Fetch {| url := API_BASE env ++ "/extract";
                 method := "POST";
                 headers := [("Content-Type", "application/json")];
                 body := TextBody
                           (JSON_stringify
                              (JObject [("text", JString (scribeText s))])) |}
     :: rest) /\
  (forall req,
     In (Fetch req) (effects env SubmitScribeText s) ->
     body req =
     TextBody (JSON_stringify (JObject [("text", JString (scribeText s))]))) /\
  (scalar_text (scribeText s) = true ->
   forall req sent,
     In (Fetch req) (effects env SubmitScribeText s) ->
     body req = TextBody sent ->
     JSON_parse sent = Some (JObject [("text", JString (scribeText s))])).
Proof.
  intros Hne.
  assert (Hbody : forall req,
            In (Fetch req) (effects env SubmitScribeText s) ->
            body req =
            TextBody
              (JSON_stringify (JObject [("text", JString (scribeText s))]))).
  { unfold effects. rewrite submitScribeText_run.
    destruct (String.eqb_spec (trim (scribeText s)) ""); [contradiction |].
    cbn zeta. intros req Hin.
    destruct (settle env _); cbn in Hin; issued; reflexivity. }
  split; [| split; [exact Hbody |]].
  - unfold effects. rewrite submitScribeText_run.
    destruct (String.eqb_spec (trim (scribeText s)) ""); [contradiction |].
    cbn zeta. destruct (settle env _); cbn; eauto.
  - intros Hsc req sent Hin Hsent. rewrite (Hbody req Hin) in Hsent.
    injection Hsent as <-.
    apply JSON_parse_stringify_field; [reflexivity | exact Hsc].
Qed.

(** X1.  A submission issues at most one request: there is no retry on any
    path, and rejected input issues none. *)
Theorem one_request_at_most (h : Handler) (s : AppState) :
  (List.length (requests (effects env h s)) <= 1)%nat /\
  (forall req, In (Fetch req) (effects env h s) ->
               requests (effects env h s) = [req]).
Proof.
  split.
  - paths h s; cbn; lia.
  - intros req Hin. paths h s; issued; reflexivity.
Qed.

(** X2.  When the request a handler issued fails, the handler logs what it
    caught with [console.error], shows the notice of its panel, clears the
    busy flag and does nothing else. *)
Theorem failure_is_reported (h : Handler) (s : AppState) (req : Request) :
  In (Fetch req) (effects env h s) ->
  fails env req ->
  exists e,
    effects env h s =
    [PreventDefault; SetBusy (Some (panel_of h)); Fetch req; ConsoleError e;
     Alert (failure_message h); SetBusy None].
Proof.
  intros Hin Hf. apply fails_settle in Hf as [e He].
  paths h s; issued; try congruence; eexists; reflexivity.
Qed.

End Claims.

(** ** Ordering of numbers against the two thresholds *)

Lemma Prim2SF_70 : Prim2SF 70%float = S754_finite false 4925812092436480 (-46).
Proof. vm_compute. reflexivity. Qed.

Lemma Prim2SF_90 : Prim2SF 90%float = S754_finite false 6333186975989760 (-46).
Proof. vm_compute. reflexivity. Qed.

Lemma SFcompare_antisym (x y : spec_float) (c : comparison) :
  SFcompare x y = Some c -> SFcompare y x = Some (CompOpp c).
Proof.
  destruct x as [sx | sx | | sx mx ex], y as [sy | sy | | sy my ey]; cbn;
    try discriminate;
    try (intros [= <-]; try destruct sx; try destruct sy; reflexivity).
  intros [= <-]. f_equal.
  fold (Pos.compare mx my). fold (Pos.compare my mx).
  rewrite (Z.compare_antisym ex ey), (Pos.compare_antisym mx my).
  destruct sx, sy; try reflexivity;
    destruct (ex ?= ey)%Z; cbn; try reflexivity.
  all: destruct (mx ?= my)%positive; reflexivity.
Qed.

(** [x < y] excludes [y <= x]. *)
Lemma ltb_not_leb (x y : float) :
  (x <? y)%float = true -> (y <=? x)%float = false.
Proof.
  rewrite ltb_spec, leb_spec. unfold SFltb, SFleb.
  destruct (SFcompare (Prim2SF x) (Prim2SF y)) as [[| |] |] eqn:E;
    try discriminate.
  intros _. rewrite (SFcompare_antisym _ _ _ E). reflexivity.
Qed.

(** Below [a] excludes at or above a larger [b] of the same exponent. *)
Lemma SF_below_not_above (x : spec_float) (a b : positive) (e : Z) :
  (a < b)%positive ->
  SFltb x (S754_finite false a e) = true ->
  SFleb (S754_finite false b e) x = false.
Proof.
  intros Hab. unfold SFltb, SFleb.
  destruct x as [sx | sx | | sx mx ex]; cbn;
    try destruct sx; try reflexivity; try discriminate.
  fold (Pos.compare mx a). fold (Pos.compare b mx).
  rewrite (Z.compare_antisym ex e).
  destruct (Z.compare_spec ex e); cbn; try reflexivity; try discriminate.
  destruct (Pos.compare_spec mx a); try discriminate.
  intros _.
  destruct (Pos.compare_spec b mx); try reflexivity; lia.
Qed.

(** [x < 70] excludes [90 <= x]. *)
Lemma below_70_not_90 (x : float) :
  (x <? 70)%float = true -> (90 <=? x)%float = false.
Proof.
  rewrite ltb_spec, leb_spec, Prim2SF_70, Prim2SF_90.
  apply SF_below_not_above. reflexivity.
Qed.

Section Compliance.

Context {platform : Platform}.

(** C5.  For an imagery result whose [compliance_rate] is the number [r],
    the percentage is [Math.round(r * 100)] and is displayed, in the summary
    card and in the imagery panel, as that number followed by a percent
    sign.  The tone follows the percentage: 90 or more is the good band
    ("On Track"), 70 or more and less than 90 the monitor band, less than 70
    the critical band.  In particular 0.95 displays 95% in the good band,
    0.75 displays 75% in the monitor band and 0.5 displays 50% in the
    critical band. *)
Theorem compliance_display (s : AppState) (r : float) :
  get (visionResult s) "compliance_rate" = Some (JNumber r) ->
  let pct := Math_round (r * 100)%float in
  compliancePct s = Some pct /\
  compliancePctText s = Number_toString pct ++ "%" /\
  complianceCell s = Some (Number_toString pct ++ "%") /\
  ((90 <=? pct)%float = true ->
     complianceTone s = Some tone_ok /\ complianceLabel s = "On Track") /\
  ((70 <=? pct)%float = true -> (pct <? 90)%float = true ->
     complianceTone s = Some tone_warn /\ complianceLabel s = "Monitor") /\
  ((pct <? 70)%float = true ->
     complianceTone s = Some tone_bad /\ complianceLabel s = "Critical") /\
  (r = 0.95%float ->
     compliancePctText s = "95%" /\ complianceTone s = Some tone_ok) /\
  (r = 0.75%float ->
     compliancePctText s = "75%" /\ complianceTone s = Some tone_warn) /\
  (r = 0.5%float ->
     compliancePctText s = "50%" /\ complianceTone s = Some tone_bad).
Proof.
  intros Hg pct.
  assert (Hp : compliancePct s = Some pct).
  { unfold compliancePct. rewrite Hg. reflexivity. }
  assert (Hv : truthy (visionResult s) = true).
  { destruct (visionResult s); cbn in Hg; try discriminate. reflexivity. }
  unfold compliancePctText, complianceCell, complianceLabel, complianceTone.
  rewrite Hp, Hv.
  do 3 (split; [reflexivity |]).
  split.
  { intros H90. rewrite H90. split; reflexivity. }
  split.
  { intros H70 Hlt. rewrite (ltb_not_leb _ _ Hlt), H70. split; reflexivity. }
  split.
  { intros Hlt. rewrite (below_70_not_90 _ Hlt), (ltb_not_leb _ _ Hlt).
    split; reflexivity. }
  subst pct.
  repeat apply conj; intros ->; split; vm_compute; reflexivity.
Qed.

End Compliance.

(* ===================================================================== *)
(** * The claims on concrete runs                                        *)
(* ===================================================================== *)

(** C1, the claim as stated fails.  The empty payload text does not parse,
    so the required input of the risk panel is missing, and yet the handler
    marks the panel busy, posts ["{}"] and stores the response. *)
Lemma empty_payload_reaches_network :
  @missing_or_invalid RefPlatform SubmitBrain (filled "" "") /\
  @effects RefPlatform (answering None 200 risk_body) SubmitBrain (filled "" "")
  = [PreventDefault; SetBusy (Some brain); Fetch post_empty_object;
     SetBrainResult risk_data; SetBusy None] /\
  brainResult
    (@final RefPlatform (answering None 200 risk_body) SubmitBrain (filled "" ""))
  = risk_data.
Proof. repeat split; vm_compute; reflexivity. Qed.

(** C7, the claim as stated fails.  Text of white space only is invalid
    input for the extraction text path, and the handler ends without any
    [alert]: preventing the default is all it does. *)
Lemma blank_text_is_silent :
  @missing_or_invalid RefPlatform SubmitScribeText (filled "{}" "   ") /\
  @effects RefPlatform unreachable SubmitScribeText (filled "{}" "   ")
  = [PreventDefault].
Proof. split; vm_compute; reflexivity. Qed.

(** [rejected_input_aborts] on an unbalanced payload and on blank text. *)
Lemma rejected_input_aborts_witness :
  (fst (@run RefPlatform unreachable SubmitBrain (filled "{" "")) = Return tt /\
   @final RefPlatform unreachable SubmitBrain (filled "{" "") = filled "{" "" /\
   (forall req,
      ~ In (Fetch req)
          (@effects RefPlatform unreachable SubmitBrain (filled "{" ""))) /\
   busy (@final RefPlatform unreachable SubmitBrain (filled "{" "")) = None /\
   brainResult (@final RefPlatform unreachable SubmitBrain (filled "{" ""))
   = JNull) /\
  (fst (@run RefPlatform unreachable SubmitScribeText (filled "{}" "   "))
   = Return tt /\
   @final RefPlatform unreachable SubmitScribeText (filled "{}" "   ")
   = filled "{}" "   " /\
   (forall req,
      ~ In (Fetch req)
          (@effects RefPlatform unreachable SubmitScribeText (filled "{}" "   "))) /\
   busy (@final RefPlatform unreachable SubmitScribeText (filled "{}" "   "))
   = None /\
   scribeResult (@final RefPlatform unreachable SubmitScribeText (filled "{}" "   "))
   = JNull).
Proof.
  split.
  - apply (@rejected_input_aborts RefPlatform unreachable SubmitBrain
             (filled "{" "")).
    split; [discriminate | reflexivity].
  - apply (@rejected_input_aborts RefPlatform unreachable SubmitScribeText
             (filled "{}" "   ")).
    reflexivity.
Defined.

(** [rejected_input_notice] on each of the four handlers. *)
Lemma rejected_input_notice_witness :
  @effects RefPlatform unreachable SubmitVision (blank "{}")
  = [PreventDefault; Alert "Please choose an image file first."] /\
  @effects RefPlatform unreachable SubmitScribeFile (blank "{}")
  = [PreventDefault; Alert "Please select a PDF or text file."] /\
  @effects RefPlatform unreachable SubmitBrain (filled "[1," "")
  = [PreventDefault;
     Alert "JSON is invalid. Please fix the payload and try again."] /\
  (@effects RefPlatform unreachable SubmitScribeText (blank "{}")
   = [PreventDefault] /\
   disabled SubmitScribeText (blank "{}") = true).
Proof.
  repeat apply conj.
  - apply (@rejected_input_notice RefPlatform unreachable SubmitVision
             (blank "{}")). reflexivity.
  - apply (@rejected_input_notice RefPlatform unreachable SubmitScribeFile
             (blank "{}")). reflexivity.
  - apply (@rejected_input_notice RefPlatform unreachable SubmitBrain
             (filled "[1," "")).
    split; [discriminate | reflexivity].
  - apply (@rejected_input_notice RefPlatform unreachable SubmitScribeText
             (blank "{}")). reflexivity.
  - apply (@rejected_input_notice RefPlatform unreachable SubmitScribeText
             (blank "{}")). reflexivity.
Defined.

(** [busy_cleared_on_completion] with services that cannot be reached and
    with a body that is not JSON. *)
Lemma busy_cleared_on_completion_witness :
  (fst (@run RefPlatform unreachable SubmitBrain (filled "" "")) = Return tt /\
   busy (@final RefPlatform unreachable SubmitBrain (filled "" "")) = None /\
   last (@effects RefPlatform unreachable SubmitBrain (filled "" ""))
     PreventDefault = SetBusy None) /\
  (fst (@run RefPlatform (answering None 200 "<html>") SubmitVision
          (filled "" "")) = Return tt /\
   busy (@final RefPlatform (answering None 200 "<html>") SubmitVision
           (filled "" "")) = None /\
   last (@effects RefPlatform (answering None 200 "<html>") SubmitVision
           (filled "" "")) PreventDefault = SetBusy None).
Proof.
  split.
  - apply (@busy_cleared_on_completion RefPlatform unreachable SubmitBrain
             (filled "" "")).
    vm_compute. auto.
  - apply (@busy_cleared_on_completion RefPlatform
             (answering None 200 "<html>") SubmitVision (filled "" "")).
    vm_compute. auto.
Defined.

(** [failure_keeps_result] on a 503 response and on a transport error, from
    states that hold an earlier result. *)
Lemma failure_keeps_result_witness :
  (brainResult (@final RefPlatform (answering None 503 "down") SubmitBrain
                  (with_brainResult risk_data (filled "" "")))
   = risk_data /\
   busy (@final RefPlatform (answering None 503 "down") SubmitBrain
           (with_brainResult risk_data (filled "" ""))) = None /\
   @final RefPlatform (answering None 503 "down") SubmitBrain
     (with_brainResult risk_data (filled "" ""))
   = with_busy None (with_brainResult risk_data (filled "" ""))) /\
  (scribeResult (@final RefPlatform unreachable SubmitScribeFile
                   (with_scribeResult risk_data (filled "" "")))
   = risk_data /\
   busy (@final RefPlatform unreachable SubmitScribeFile
           (with_scribeResult risk_data (filled "" ""))) = None /\
   @final RefPlatform unreachable SubmitScribeFile
     (with_scribeResult risk_data (filled "" ""))
   = with_busy None (with_scribeResult risk_data (filled "" ""))).
Proof.
  split.
  - apply (@failure_keeps_result RefPlatform (answering None 503 "down")
             SubmitBrain (with_brainResult risk_data (filled "" ""))
             post_empty_object).
    + vm_compute. auto.
    + eapply http_status; reflexivity.
  - apply (@failure_keeps_result RefPlatform unreachable SubmitScribeFile
             (with_scribeResult risk_data (filled "" "")) post_file).
    + vm_compute. auto.
    + eapply transport_error; reflexivity.
Defined.

(** [success_replaces_result] on the risk scenario of the specification. *)
Lemma success_replaces_result_witness :
  brainResult
    (@final RefPlatform (answering None 200 risk_body) SubmitBrain
       (with_brainResult JNull (filled "" "")))
  = risk_data /\
  In (SetBrainResult risk_data)
    (@effects RefPlatform (answering None 200 risk_body) SubmitBrain
       (with_brainResult JNull (filled "" ""))).
Proof.
  apply (@success_replaces_result RefPlatform (answering None 200 risk_body)
           SubmitBrain (with_brainResult JNull (filled "" ""))
           post_empty_object risk_data).
  - vm_compute. auto.
  - exists {| status := 200; payload := inr risk_body |}, risk_body.
    repeat split.
Defined.

(** [overlay_resolved] on the example of the specification, base
    [https://api.example.com] and overlay [/overlays/x.png], and on a
    response without overlay that replaces an earlier one. *)
Lemma overlay_resolved_witness :
  (visionOverlay
     (@final RefPlatform
        (answering (Some "https://api.example.com") 200 imagery_body)
        SubmitVision (filled "" ""))
   = Some "https://api.example.com/overlays/x.png" /\
   overlayBox
     (@final RefPlatform
        (answering (Some "https://api.example.com") 200 imagery_body)
        SubmitVision (filled "" ""))
   = OverlayImage "https://api.example.com/overlays/x.png") /\
  (visionOverlay
     (@final RefPlatform (answering None 200 plain_imagery_body) SubmitVision
        (with_visionOverlay (Some "http://localhost:8000/overlays/old.png")
           (filled "" "")))
   = None /\
   In (SetVisionOverlay None)
     (@effects RefPlatform (answering None 200 plain_imagery_body) SubmitVision
        (with_visionOverlay (Some "http://localhost:8000/overlays/old.png")
           (filled "" ""))) /\
   overlayBox
     (@final RefPlatform (answering None 200 plain_imagery_body) SubmitVision
        (with_visionOverlay (Some "http://localhost:8000/overlays/old.png")
           (filled "" "")))
   = NoOverlayYet).
Proof.
  split.
  - refine (proj1
              (@overlay_resolved RefPlatform
                 (answering (Some "https://api.example.com") 200 imagery_body)
                 (filled "" "") (post_image "https://api.example.com")
                 imagery_data _ _)
              "/overlays/x.png" _ _).
    + vm_compute. auto.
    + exists {| status := 200; payload := inr imagery_body |}, imagery_body.
      repeat split.
    + reflexivity.
    + discriminate.
  - refine (proj2
              (@overlay_resolved RefPlatform
                 (answering None 200 plain_imagery_body)
                 (with_visionOverlay
                    (Some "http://localhost:8000/overlays/old.png")
                    (filled "" ""))
                 (post_image "http://localhost:8000")
                 plain_imagery_data _ _) _).
    + vm_compute. auto.
    + exists {| status := 200; payload := inr plain_imagery_body |},
        plain_imagery_body.
      repeat split.
    + reflexivity.
Defined.

(** [compliance_display] on a compliance rate of 0.75. *)
Lemma compliance_display_witness :
  compliancePct (with_visionResult imagery_data (filled "" ""))
  = Some 75%float /\
  @compliancePctText RefPlatform (with_visionResult imagery_data (filled "" ""))
  = "75%" /\
  complianceTone (with_visionResult imagery_data (filled "" ""))
  = Some tone_warn /\
  complianceLabel (with_visionResult imagery_data (filled "" "")) = "Monitor".
Proof.
  pose proof (@compliance_display RefPlatform
                (with_visionResult imagery_data (filled "" "")) 0.75%float
                eq_refl) as H.
  cbv zeta in H.
  destruct H as (Hp & Ht & _ & _ & Hwarn & _).
  destruct Hwarn as [Htone Hlabel]; [reflexivity | reflexivity |].
  repeat split; assumption.
Defined.

(** [empty_payload_is_posted] on the empty payload. *)
Lemma empty_payload_is_posted_witness :
  @JSON_parse RefPlatform (str_or (brainJson (filled "" "")) "{}")
  = Some (JObject []) /\
  (exists rest,
     @effects RefPlatform unreachable SubmitBrain (filled "" "")
     = PreventDefault :: SetBusy (Some brain) :: Fetch post_empty_object :: rest) /\
  ~ In (Alert "JSON is invalid. Please fix the payload and try again.")
      (@effects RefPlatform unreachable SubmitBrain (filled "" "")).
Proof.
  apply (@empty_payload_is_posted RefPlatform unreachable (filled "" "")).
  reflexivity.
Defined.

(** [text_is_posted_untrimmed] on text with spaces at both ends. *)
Lemma text_is_posted_untrimmed_witness :
  (exists rest,
     @effects RefPlatform unreachable SubmitScribeText
       (filled "" "  Crew: 42  ")
     = PreventDefault :: SetBusy (Some scribe)
       :: Fetch (post_text (Ref.dq "{'text':'  Crew: 42  '}")) :: rest) /\
  (forall req,
     In (Fetch req)
       (@effects RefPlatform unreachable SubmitScribeText
          (filled "" "  Crew: 42  ")) ->
     body req = TextBody (Ref.dq "{'text':'  Crew: 42  '}")) /\
  (scalar_text "  Crew: 42  " = true ->
   forall req sent,
     In (Fetch req)
       (@effects RefPlatform unreachable SubmitScribeText
          (filled "" "  Crew: 42  ")) ->
     body req = TextBody sent ->
     Ref.JSON_parse sent = Some (JObject [("text", JString "  Crew: 42  ")])).
Proof.
  apply (@text_is_posted_untrimmed RefPlatform unreachable
           (filled "" "  Crew: 42  ")).
  discriminate.
Defined.

(** A successful response whose overlay cannot be turned into a string: the
    result has been stored when the conversion throws, and the handler then
    shows its failure notice. *)
Example overlay_conversion_throws :
  @effects RefPlatform (answering None 200 odd_imagery_body) SubmitVision
    (filled "" "")
  = [PreventDefault; SetBusy (Some vision);
     Fetch (post_image "http://localhost:8000");
     SetVisionResult odd_imagery_data;
     ConsoleError (TypeError "Cannot convert object to primitive value");
     Alert "Unable to analyse the image. Please check the backend logs.";
     SetBusy None].
Proof. vm_compute. reflexivity. Qed.

(** [failure_is_reported] on a 500 response to the extraction text path. *)
Lemma failure_is_reported_witness :
  exists e,
    @effects RefPlatform (answering None 500 "boom") SubmitScribeText
      (filled "" "notes")
    = [PreventDefault; SetBusy (Some scribe);
       Fetch (post_text (Ref.dq "{'text':'notes'}")); ConsoleError e;
       Alert "Text extraction failed. Please retry once the backend is ready.";
       SetBusy None].
Proof.
  apply (@failure_is_reported RefPlatform (answering None 500 "boom")
           SubmitScribeText (filled "" "notes")
           (post_text (Ref.dq "{'text':'notes'}"))).
  - vm_compute. auto.
  - eapply http_status; reflexivity.
Defined.

(* ===================================================================== *)
(** * Every run of a handler                                             *)
(* ===================================================================== *)

(** Case analysis of a run along the paths of its handler. *)
Ltac along env h s :=
  unfold final, effects in *;
  destruct h;
  [ rewrite (submitBrain_run env s) in *;
    destruct (JSON_parse (str_or (brainJson s) "{}")) eqn:?
  | rewrite (submitVision_run env s) in *;
    destruct (visionFileRef s) eqn:?
  | rewrite (submitScribeFile_run env s) in *;
    destruct (scribeFileRef s) eqn:?
  | rewrite (submitScribeText_run env s) in *;
    destruct (trim (scribeText s) =? "")%string eqn:? ];
  cbn zeta in *;
  try match goal with
      | H : context [match settle env ?r with _ => _ end] |- _ =>
          destruct (settle env r) eqn:?
      | |- context [match settle env ?r with _ => _ end] =>
          destruct (settle env r) eqn:?
      end;
  try match goal with
      | H : context [match get ?d "overlay_url" with _ => _ end] |- _ =>
          destruct (get d "overlay_url") as [?u |] eqn:?;
          [ destruct (truthy u) eqn:?; [ destruct (ToString u) eqn:? | ] | ]
      | |- context [match get ?d "overlay_url" with _ => _ end] =>
          destruct (get d "overlay_url") as [?u |] eqn:?;
          [ destruct (truthy u) eqn:?; [ destruct (ToString u) eqn:? | ] | ]
      end;
  unfold caught in *; cbn [fst snd app trace] in *.

Ltac found :=
  repeat match goal with
         | H : In _ _ |- _ => cbn [In] in H
         | H : _ \/ _ |- _ => destruct H
         | H : False |- _ => destruct H
         | H : @eq Event _ _ |- _ => first [ discriminate H | injection H as <- ]
         end.

Section Runs.

Context {platform : Platform} (env : Env).

(** X3.  No handler lets an exception escape: whatever the input and
    whatever the remote side does, the promise of the handler is fulfilled. *)
Theorem handlers_never_throw (h : Handler) (s : AppState) :
  fst (run env h s) = Return tt.
Proof. along env h s; reflexivity. Qed.

(** X4.  A run leaves the inputs alone (payload text, notes, selected
    files) and writes to the cells of its own panel only. *)
Theorem run_frame (h : Handler) (s : AppState) :
  let s' := final env h s in
  (brainJson s' = brainJson s /\ scribeText s' = scribeText s /\
   visionFileRef s' = visionFileRef s /\ scribeFileRef s' = scribeFileRef s) /\
  (panel_of h <> brain -> brainResult s' = brainResult s) /\
  (panel_of h <> vision ->
   visionResult s' = visionResult s /\ visionOverlay s' = visionOverlay s /\
   visionFileName s' = visionFileName s) /\
  (panel_of h <> scribe -> scribeResult s' = scribeResult s).
Proof.
  cbv zeta. along env h s; cbn; intuition congruence.
Qed.

(** X5.  Every request is a POST.  The two JSON requests carry the one
    header [Content-Type: application/json]; the body of the risk request
    is the text [JSON.stringify] gives for the parsed payload, not the text
    that was typed.  The two file requests carry no header of their own and
    a form whose one entry, [file], is the selected file. *)
Theorem request_shape (h : Handler) (s : AppState) (req : Request) :
  In (Fetch req) (effects env h s) ->
  method req = "POST" /\
  match h with
  | SubmitBrain =>
      headers req = [("Content-Type", "application/json")] /\
      exists payload,
        JSON_parse (str_or (brainJson s) "{}") = Some payload /\
        body req = TextBody (JSON_stringify payload)
  | SubmitVision =>
      headers req = [] /\
      exists file,
        visionFileRef s = Some file /\ body req = FormBody [("file", file)]
  | SubmitScribeFile =>
      headers req = [] /\
      exists file,
        scribeFileRef s = Some file /\ body req = FormBody [("file", file)]
  | SubmitScribeText =>
      headers req = [("Content-Type", "application/json")] /\
      body req =
      TextBody (JSON_stringify (JObject [("text", JString (scribeText s))]))
  end.
Proof.
  intros Hin. along env h s; found; cbn; eauto 10.
Qed.

(** X6.  The busy flag brackets the request: a run that issues a request
    has set the flag to its panel just before, clears it as its last effect,
    and touches the flag at no point in between. *)
Theorem busy_brackets_request (h : Handler) (s : AppState) (req : Request) :
  In (Fetch req) (effects env h s) ->
  exists mid,
    effects env h s =
    ([PreventDefault; SetBusy (Some (panel_of h)); Fetch req] ++ mid
     ++ [SetBusy None])%list /\
    (forall b, ~ In (SetBusy b) mid) /\
    (forall r, ~ In (Fetch r) mid).
Proof.
  intros Hin. along env h s; found;
    match goal with
    | |- exists mid, [_; _; _; ?a; ?b; ?c; ?d] = _ /\ _ => exists [a; b; c]
    | |- exists mid, [_; _; _; ?a; ?b; ?c] = _ /\ _ => exists [a; b]
    | |- exists mid, [_; _; _; ?a; ?b] = _ /\ _ => exists [a]
    end;
    (split; [reflexivity |]); split; intros ? Hm; cbn in Hm; found.
Qed.

(** X7.  A result cell changes only when a request of its handler
    succeeded, and then to the data of that response. *)
Theorem result_changes_only_on_success (h : Handler) (s : AppState) :
  result_of h (final env h s) <> result_of h s ->
  exists req,
    In (Fetch req) (effects env h s) /\
    succeeds env req (result_of h (final env h s)).
Proof.
  intros Hne. along env h s; try (exfalso; apply Hne; reflexivity);
    eexists; (split; [cbn; eauto 10 | apply succeeds_settle; eassumption]).
Qed.

(** X8.  An enabled "Extract from Text" button always sends the notes:
    while no extraction is under way, the button is enabled exactly when
    submitting the form issues a request. *)
Theorem enabled_text_button_posts (s : AppState) :
  busy s <> Some scribe ->
  (disabled SubmitScribeText s = false <->
   exists req, In (Fetch req) (effects env SubmitScribeText s)).
Proof.
  intros Hb. unfold disabled, busy_is.
  assert (Hp : match busy s with
               | Some q => Panel_eqb q scribe
               | None => false
               end = false).
  { destruct (busy s) as [[] |]; try reflexivity. congruence. }
  rewrite Hp. cbn [orb].
  unfold effects. rewrite (submitScribeText_run env s).
  destruct (trim (scribeText s) =? "")%string eqn:Ht; cbn zeta.
  - split; [discriminate | intros [req Hin]; cbn in Hin; found].
  - split; [| reflexivity].
    intros _. destruct (settle env _); unfold caught; cbn; eauto 10.
Qed.

(** X9.  A submission shows at most one notice, and its text is fixed by
    the panel: the notice for rejected input or the notice for a failed
    request. *)
Theorem one_notice_at_most (h : Handler) (s : AppState) :
  alerts (effects env h s) = [] \/
  alerts (effects env h s) = [failure_message h] \/
  map Alert (alerts (effects env h s)) = notice h.
Proof.
  along env h s; cbn; auto.
Qed.

End Runs.

Section ResultBoxes.

Context {platform : Platform} (env : Env).
Variable JSON_stringify_2 : value -> string.

(** X10.  After a successful response the result box of the panel shows the
    pretty text of the response body, unless the body is a falsy value
    ([null], [false], [0], the empty string): then the box shows its
    placeholder, as if nothing had been received. *)
Theorem result_box_after_success (h : Handler) (s : AppState) (req : Request)
    (data : value) (empty : string) :
  In (Fetch req) (effects env h s) ->
  succeeds env req data ->
  ResultBox JSON_stringify_2 (result_of h (final env h s)) empty =
  if truthy data then Pre (JSON_stringify_2 data) else Placeholder empty.
Proof.
  intros Hin Hs. apply succeeds_settle in Hs.
  assert (Hd : result_of h (final env h s) = data)
    by (along env h s; found; cbn; congruence).
  rewrite Hd. reflexivity.
Qed.

End ResultBoxes.

(* ===================================================================== *)
(** * The lists of the view                                              *)
(* ===================================================================== *)

Section Rows.

Context {A : Type} (row : value -> nat -> option A).

Lemma map_rows_length (items : list value) :
  forall k rows,
    map_rows row k items = Some rows -> List.length rows = List.length items.
Proof.
  induction items as [| item rest IH]; intros k rows; cbn.
  - intros [= <-]. reflexivity.
  - destruct (row item k) as [r |]; [| discriminate].
    destruct (map_rows row (S k) rest) as [rs |] eqn:E; [| discriminate].
    intros [= <-]. cbn. f_equal. eapply IH, E.
Qed.

(** Row [i] is made from item [i] and the index [k + i]. *)
Lemma map_rows_nth (items : list value) :
  forall k rows i item,
    map_rows row k items = Some rows ->
    nth_error items i = Some item ->
    exists r, row item (k + i) = Some r /\ nth_error rows i = Some r.
Proof.
  induction items as [| x rest IH]; intros k rows i item; cbn.
  - intros _ Hn. destruct i; discriminate.
  - destruct (row x k) as [r |] eqn:Hr; [| discriminate].
    destruct (map_rows row (S k) rest) as [rs |] eqn:E; [| discriminate].
    intros [= <-] Hn. destruct i as [| i]; cbn in Hn.
    + injection Hn as <-. exists r. rewrite Nat.add_0_r. auto.
    + destruct (IH _ _ _ _ E Hn) as (r' & Hr' & Hn').
      exists r'. rewrite Nat.add_succ_r. auto.
Qed.

(** The rows are built unless the row of some item throws. *)
Lemma map_rows_some (items : list value) :
  forall k,
    (exists rows, map_rows row k items = Some rows) <->
    (forall i item, nth_error items i = Some item -> row item (k + i) <> None).
Proof.
  induction items as [| x rest IH]; intros k; cbn.
  - split; [intros _ i item Hn; destruct i; discriminate | eauto].
  - split.
    + intros [rows H] i item Hn.
      destruct (row x k) as [r |] eqn:Hr; [| discriminate].
      destruct (map_rows row (S k) rest) as [rs |] eqn:E; [| discriminate].
      destruct i as [| i]; cbn in Hn.
      * injection Hn as <-. rewrite Nat.add_0_r. congruence.
      * rewrite Nat.add_succ_r. apply (proj1 (IH (S k))); eauto.
    + intros H.
      destruct (row x k) as [r |] eqn:Hr.
      * destruct (proj2 (IH (S k))) as [rs ->]; [| eauto].
        intros i item Hn. specialize (H (S i) item Hn).
        rewrite Nat.add_succ_r in H. exact H.
      * exfalso. apply (H 0 x eq_refl). rewrite Nat.add_0_r. exact Hr.
Qed.

End Rows.

Lemma first_six_array (items : list value) :
  forall {A} (row : value -> nat -> option A),
    rows_of row (Some (JArray items)) = map_rows row 0 (firstn 6 items).
Proof. intros A row. destruct items; reflexivity. Qed.

(** At most six items are shown. *)
Lemma first_six_bound (xs : option value) (items : list value) :
  first_six xs = ShowItems items -> (List.length items <= 6)%nat.
Proof.
  unfold first_six.
  destruct xs as [[| b | x | txt | its | props] |]; try discriminate.
  - destruct (txt =? ""); discriminate.
  - destruct its as [| v its]; [discriminate |]. intros H.
    assert (items = firstn 6 (v :: its)) as -> by congruence.
    apply firstn_le_length.
  - destruct (truthy_opt _); discriminate.
Qed.

Section Lists.

Context {platform : Platform}.

Lemma contributorRow_some (item : value) (idx : nat) :
  contributorRow item idx <> None <->
  exists x, get item "impact" = Some (JNumber x).
Proof.
  unfold contributorRow. split.
  - intros H. destruct item; cbn in *; try congruence.
    destruct (assoc "impact" props) as [[] |]; try congruence. eauto.
  - intros [x Hx]. destruct item; cbn in *; try discriminate.
    rewrite Hx. discriminate.
Qed.


Lemma last_char_app (a b : string) :
  b <> "" -> last_char (a ++ b) = last_char b.
Proof.
  intros Hb. induction a as [| c a IH]; [reflexivity |].
  cbn. destruct (a ++ b) eqn:E; [| exact IH].
  destruct a; cbn in E; [contradiction | discriminate].
Qed.

(** The key of the row at an index below ten ends with the digit of the
    index. *)
Lemma issue_key_last (issue : value) (idx : nat) (r : IssueRow) :
  (idx < 6)%nat ->
  issueRow issue idx = Some r ->
  last_char (issue_key r) = Some (ascii_of_nat (48 + idx)).
Proof.
  intros Hlt Hr. unfold issueRow in Hr.
  assert (exists t, issue_key r = t ++ "-" ++ decimal (Z.of_nat idx))
    as [t ->].
  { destruct issue; try discriminate;
      destruct (ToString_opt _) as [t |]; try discriminate;
      injection Hr as <-; eexists; reflexivity. }
  do 6 (destruct idx as [| idx];
        [ rewrite !last_char_app by discriminate; reflexivity |]).
  lia.
Qed.

(** X12.  The issue list shows at most six rows, and their keys are
    pairwise distinct. *)
Theorem issue_keys_distinct (s : AppState) (rows : list IssueRow) :
  issueRows s = Some rows ->
  (List.length rows <= 6)%nat /\ NoDup (map issue_key rows).
Proof.
  unfold issueRows, rows_of. intros Hr.
  destruct (first_six (get (scribeResult s) "issues")) as [| items |] eqn:Hf;
    try discriminate.
  { injection Hr as <-. split; [cbn; lia | constructor]. }
  pose proof (first_six_bound _ _ Hf) as Hlen.
  pose proof (map_rows_length _ _ _ _ Hr) as Hl.
  split; [lia |].
  apply NoDup_nth_error. intros i j Hi Hij.
  rewrite length_map in Hi. rewrite !nth_error_map in Hij.
  assert (Hkey : forall n r, nth_error rows n = Some r ->
                 (n < 6)%nat /\ last_char (issue_key r) = Some (ascii_of_nat (48 + n))).
  { intros n r Hn.
    assert (Hn6 : (n < List.length rows)%nat)
      by (apply nth_error_Some; congruence).
    destruct (nth_error items n) as [item |] eqn:Hitem.
    - destruct (map_rows_nth _ _ _ _ _ _ Hr Hitem) as (r' & Hrow & Hn').
      assert (r' = r) by congruence. subst r'.
      split; [lia |]. apply (issue_key_last item n r); [lia | exact Hrow].
    - apply nth_error_None in Hitem. lia. }
  destruct (nth_error rows i) as [ri |] eqn:Hri.
  2: { apply nth_error_None in Hri. lia. }
  destruct (nth_error rows j) as [rj |] eqn:Hrj; [| discriminate].
  cbn in Hij. injection Hij as Hk.
  destruct (Hkey i ri Hri) as [Hi6 Hli], (Hkey j rj Hrj) as [Hj6 Hlj].
  rewrite Hk, Hlj in Hli. injection Hli as He.
  apply (f_equal nat_of_ascii) in He.
  rewrite !nat_ascii_embedding in He by lia. lia.
Qed.

End Lists.

(* ===================================================================== *)
(** * Responses of the declared shapes                                   *)
(* ===================================================================== *)

Lemma In_firstn {A} (n : nat) (l : list A) (x : A) :
  In x (firstn n l) -> In x l.
Proof.
  revert l. induction n as [| n IH]; intros [| y l]; cbn; try tauto.
  intros [-> | H]; auto.
Qed.


Lemma required_some (p : value -> bool) (o : option value) :
  required p o = true -> exists v, o = Some v /\ p v = true.
Proof. destruct o; cbn; [eauto | discriminate]. Qed.

Ltac conjuncts :=
  repeat match goal with
         | H : _ && _ = true |- _ => apply andb_prop in H; destruct H
         end.

Section Shapes.

Context {platform : Platform} (env : Env).

Lemma contributor_has_impact (item : value) :
  is_RiskContributor item = true ->
  exists x, get item "impact" = Some (JNumber x).
Proof.
  intros H.
  assert (H1 : required is_number (get item "impact") = true)
    by (unfold is_RiskContributor in H; conjuncts; assumption).
  destruct (required_some _ _ H1) as ([] & -> & Hn); try discriminate. eauto.
Qed.

(** X13.  For a stored result of the declared type [BrainResponse] the risk
    view is built without throwing: the score to two decimals, the band as
    it came, the tone [ok] for "Low", [warn] for "Medium" and [bad] for
    "High", and one contributor row for each of the first six
    contributors. *)
Theorem brain_view_of_typed_response (s : AppState) :
  is_BrainResponse (brainResult s) = true ->
  exists score band items rows,
    get (brainResult s) "risk_score" = Some (JNumber score) /\
    get (brainResult s) "risk_band" = Some (JString band) /\
    get (brainResult s) "top_contributors" = Some (JArray items) /\
    riskScoreText s = Some (toFixed 2 score) /\
    riskBandChild s = JString band /\
    brainTone s =
    Some (if band =? "Low" then tone_ok
          else if band =? "Medium" then tone_warn else tone_bad) /\
    (band = "High" -> brainTone s = Some tone_bad) /\
    contributorRows s = Some rows /\
    List.length rows = Nat.min 6 (List.length items).
Proof.
  intros H.
  assert (H1 : required is_number (get (brainResult s) "risk_score") = true)
    by (unfold is_BrainResponse in H; conjuncts; assumption).
  assert (H2 : required (is_array_of is_RiskContributor)
                 (get (brainResult s) "top_contributors") = true)
    by (unfold is_BrainResponse in H; conjuncts; assumption).
  assert (H3 : exists band,
             get (brainResult s) "risk_band" = Some (JString band)).
  { unfold is_BrainResponse in H. conjuncts.
    match goal with
    | E : required _ (get _ "risk_band") = true |- _ =>
        destruct (required_some _ _ E) as ([] & -> & ?); try discriminate
    end. eauto. }
  destruct (required_some _ _ H1) as ([| | score | | |] & Hs & ?);
    try discriminate.
  destruct H3 as [band Hb].
  destruct (required_some _ _ H2) as ([| | | | items |] & Hi & Hall);
    try discriminate.
  cbn in Hall. rewrite forallb_forall in Hall.
  assert (Hrows : exists rows, contributorRows s = Some rows).
  { unfold contributorRows. rewrite Hi, first_six_array.
    apply map_rows_some. intros i item Hn.
    apply contributorRow_some, contributor_has_impact, Hall.
    eapply In_firstn, nth_error_In, Hn. }
  destruct Hrows as [rows Hrows].
  assert (Ht : truthy (brainResult s) = true).
  { destruct (brainResult s); cbn in Hs; try discriminate. reflexivity. }
  exists score, band, items, rows.
  unfold riskScoreText, riskBandChild, brainTone. rewrite Hs, Hb, Ht. cbn.
  repeat split; auto.
  - intros ->. reflexivity.
  - unfold contributorRows in Hrows. rewrite Hi, first_six_array in Hrows.
    rewrite (map_rows_length _ _ _ _ Hrows). apply length_firstn.
Qed.



(** X15.  A successful imagery response of the declared type
    [VisionResponse] is stored without any notice: the handler sets the
    result, the overlay and the name of the submitted file, clears the busy
    flag, and neither logs nor alerts; the percentage is then defined. *)
Theorem vision_typed_success (s : AppState) (req : Request) (data : value) :
  In (Fetch req) (effects env SubmitVision s) ->
  succeeds env req data ->
  is_VisionResponse data = true ->
  exists file overlay,
    visionFileRef s = Some file /\
    effects env SubmitVision s =
    [PreventDefault; SetBusy (Some vision); Fetch req; SetVisionResult data;
     SetVisionOverlay overlay; SetVisionFileName (name file); SetBusy None] /\
    visionFileName (final env SubmitVision s) = name file /\
    compliancePct (final env SubmitVision s) <> None.
Proof.
  intros Hin Hs Hshape. apply succeeds_settle in Hs.
  assert (H1 : required is_number (get data "compliance_rate") = true)
    by (unfold is_VisionResponse in Hshape; conjuncts; assumption).
  assert (H2 : optional is_string (get data "overlay_url") = true)
    by (unfold is_VisionResponse in Hshape; conjuncts; assumption).
  destruct (required_some _ _ H1) as ([| | rate | | |] & Hrate & ?);
    try discriminate.
  unfold final, effects in *. rewrite submitVision_run in *.
  destruct (visionFileRef s) as [file |]; [| cbn in Hin; intuition discriminate].
  cbn zeta in *.
  assert (Hreq : req = {| url := API_BASE env ++ "/analyze-image";
                          method := "POST"; headers := [];
                          body := FormBody [("file", file)] |}).
  { destruct (settle env _); unfold caught in Hin;
      repeat match type of Hin with
             | context [match ?x with _ => _ end] => destruct x
             end;
      cbn in Hin;
      repeat match goal with
             | H : _ \/ _ |- _ => destruct H
             | H : False |- _ => destruct H
             | H : @eq Event _ _ |- _ =>
                 first [ discriminate H | injection H as <- ]
             end; reflexivity. }
  subst req. rewrite Hs.
  unfold compliancePct.
  destruct (get data "overlay_url") as [[] |]; try discriminate;
    try destruct (truthy _); cbn; rewrite ?Hrate;
    exists file; eexists; repeat split; try reflexivity; try discriminate.
Qed.

End Shapes.

(* ===================================================================== *)
(** * Sessions                                                           *)
(* ===================================================================== *)

Section Sessions.

Context {platform : Platform} (base : option string) (sample : string).

(** [API_BASE] is never empty. *)
Lemma API_BASE_nonempty (env : Env) : API_BASE env <> "".
Proof.
  unfold API_BASE, str_or.
  destruct (VITE_API_BASE env) as [b |]; [| discriminate].
  destruct (String.eqb_spec b ""); [discriminate | assumption].
Qed.

(** X16.  Between the actions of a session whose submissions do not
    overlap, the busy flag is idle, so no submit button is left disabled by
    an earlier submission: the only disabled button is the one of the text
    form while its text is blank. *)
Theorem session_busy_idle (s : AppState) :
  reachable base sample s ->
  busy s = None /\
  forall h, disabled h s = true <->
            h = SubmitScribeText /\ trim (scribeText s) = "".
Proof.
  intros Hr.
  assert (Hb : busy s = None).
  { induction Hr as [| a s Hr IH]; [reflexivity |].
    destruct a as [h services | v | v | f | f]; cbn; try exact IH.
    along (serving base services) h s; cbn; auto. }
  split; [exact Hb |].
  intros h. unfold disabled, busy_is. rewrite Hb.
  destruct h; cbn; split; try discriminate; try (intros [? _]; discriminate).
  - intros H. split; [reflexivity | apply String.eqb_eq, H].
  - intros [_ H]. apply String.eqb_eq, H.
Qed.

(** X17.  In a session whose submissions do not overlap, the name shown
    under the image input is the name of the file that is selected, and
    nothing is shown when no file is selected or the selected file has an
    empty name. *)
Theorem session_file_label (s : AppState) :
  reachable base sample s ->
  visionFileName s =
  match visionFileRef s with
  | Some file => name file
  | None => ""
  end /\
  selectedLabel s =
  match visionFileRef s with
  | Some file => if name file =? "" then None else Some (name file)
  | None => None
  end.
Proof.
  intros Hr.
  assert (H : visionFileName s =
              match visionFileRef s with
              | Some file => name file
              | None => ""
              end).
  { induction Hr as [| a s Hr IH]; [reflexivity |].
    destruct a as [h services | v | v | f | f]; cbn; try exact IH;
      try reflexivity.
    along (serving base services) h s; cbn;
      try match goal with
          | E : visionFileRef s = _ |- _ => rewrite ?E in *
          end;
      auto. }
  split; [exact H |].
  unfold selectedLabel. rewrite H.
  destruct (visionFileRef s); reflexivity.
Qed.

(** X18.  In a session whose submissions do not overlap, the stored
    overlay is [null] or [API_BASE] followed by a path, and the overlay box
    shows an image exactly when an overlay is stored. *)
Theorem session_overlay (s : AppState) :
  reachable base sample s ->
  (visionOverlay s = None \/
   exists path,
     visionOverlay s = Some (API_BASE (serving base (fun _ => inl SyntaxError)) ++ path)) /\
  (overlayBox s = NoOverlayYet <-> visionOverlay s = None).
Proof.
  intros Hr.
  assert (H : visionOverlay s = None \/
              exists path,
                visionOverlay s =
                Some (API_BASE (serving base (fun _ => inl SyntaxError)) ++ path)).
  { induction Hr as [| a s Hr IH]; [left; reflexivity |].
    destruct a as [h services | v | v | f | f]; cbn; try exact IH.
    along (serving base services) h s; cbn; eauto. }
  split; [exact H |].
  unfold overlayBox. destruct H as [-> | [path ->]]; [tauto |].
  destruct (String.eqb_spec (API_BASE (serving base (fun _ => inl SyntaxError)) ++ path) "")
    as [E | E].
  - exfalso. apply (API_BASE_nonempty (serving base (fun _ => inl SyntaxError))).
    destruct (API_BASE _); [reflexivity | discriminate].
  - split; discriminate.
Qed.


End Sessions.

(* ===================================================================== *)
(** * The further properties on concrete runs                            *)
(* ===================================================================== *)

(** [request_shape] on the first "Score Project" of a fresh page. *)
Lemma request_shape_witness :
  method post_sample = "POST" /\
  headers post_sample = [("Content-Type", "application/json")] /\
  exists payload,
    Ref.JSON_parse (str_or (brainJson (initial sample_payload)) "{}")
    = Some payload /\
    body post_sample = TextBody (Ref.JSON_stringify payload).
Proof.
  apply (@request_shape RefPlatform (answering None 200 risk_body) SubmitBrain
           (initial sample_payload) post_sample).
  vm_compute. auto.
Defined.

(** [busy_brackets_request] on the same run. *)
Lemma busy_brackets_request_witness :
  exists mid,
    @effects RefPlatform (answering None 200 risk_body) SubmitBrain
      (initial sample_payload)
    = ([PreventDefault; SetBusy (Some brain); Fetch post_sample] ++ mid
       ++ [SetBusy None])%list /\
    (forall b, ~ In (SetBusy b) mid) /\
    (forall r, ~ In (Fetch r) mid).
Proof.
  apply (@busy_brackets_request RefPlatform (answering None 200 risk_body)
           SubmitBrain (initial sample_payload) post_sample).
  vm_compute. auto.
Defined.

(** [result_changes_only_on_success] on the same run. *)
Lemma result_changes_only_on_success_witness :
  exists req,
    In (Fetch req)
      (@effects RefPlatform (answering None 200 risk_body) SubmitBrain
         (initial sample_payload)) /\
    @succeeds RefPlatform (answering None 200 risk_body) req
      (result_of SubmitBrain
         (@final RefPlatform (answering None 200 risk_body) SubmitBrain
            (initial sample_payload))).
Proof.
  apply (@result_changes_only_on_success RefPlatform
           (answering None 200 risk_body) SubmitBrain (initial sample_payload)).
  vm_compute. discriminate.
Defined.

(** [enabled_text_button_posts] on notes that are not blank. *)
Lemma enabled_text_button_posts_witness :
  disabled SubmitScribeText (filled "" "notes") = false <->
  exists req,
    In (Fetch req)
      (@effects RefPlatform unreachable SubmitScribeText (filled "" "notes")).
Proof.
  apply (@enabled_text_button_posts RefPlatform unreachable (filled "" "notes")).
  discriminate.
Defined.

(** [result_box_after_success] with the indenting printer of the reference
    platform. *)
Lemma result_box_after_success_witness :
  ResultBox Ref_stringify_2
    (result_of SubmitBrain
       (@final RefPlatform (answering None 200 risk_body) SubmitBrain
          (initial sample_payload)))
    "Results will appear here after you score a project."
  = if truthy risk_data then Pre (Ref_stringify_2 risk_data)
    else Placeholder "Results will appear here after you score a project.".
Proof.
  apply (@result_box_after_success RefPlatform (answering None 200 risk_body)
           Ref_stringify_2 SubmitBrain (initial sample_payload) post_sample
           risk_data).
  - vm_compute. auto.
  - exists {| status := 200; payload := inr risk_body |}, risk_body.
    repeat split.
Defined.


(** [issue_keys_distinct] on [extracted]. *)
Lemma issue_keys_distinct_witness :
  (List.length extracted_rows <= 6)%nat /\
  NoDup (map issue_key extracted_rows).
Proof.
  apply (@issue_keys_distinct RefPlatform extracted extracted_rows).
  reflexivity.
Defined.

(** [brain_view_of_typed_response] on [scored]. *)
Lemma brain_view_of_typed_response_witness :
  exists score band items rows,
    get (brainResult scored) "risk_score" = Some (JNumber score) /\
    get (brainResult scored) "risk_band" = Some (JString band) /\
    get (brainResult scored) "top_contributors" = Some (JArray items) /\
    @riskScoreText RefPlatform scored = Some (@toFixed RefPlatform 2 score) /\
    riskBandChild scored = JString band /\
    brainTone scored =
    Some (if band =? "Low" then tone_ok
          else if band =? "Medium" then tone_warn else tone_bad) /\
    (band = "High" -> brainTone scored = Some tone_bad) /\
    @contributorRows RefPlatform scored = Some rows /\
    List.length rows = Nat.min 6 (List.length items).
Proof.
  apply (@brain_view_of_typed_response RefPlatform scored).
  reflexivity.
Defined.


(** [vision_typed_success] on the example of the specification. *)
Lemma vision_typed_success_witness :
  exists file overlay,
    visionFileRef (filled "" "") = Some file /\
    @effects RefPlatform
      (answering (Some "https://api.example.com") 200 imagery_body)
      SubmitVision (filled "" "")
    = [PreventDefault; SetBusy (Some vision);
       Fetch (post_image "https://api.example.com");
       SetVisionResult imagery_data; SetVisionOverlay overlay;
       SetVisionFileName (name file); SetBusy None] /\
    visionFileName
      (@final RefPlatform
         (answering (Some "https://api.example.com") 200 imagery_body)
         SubmitVision (filled "" ""))
    = name file /\
    compliancePct
      (@final RefPlatform
         (answering (Some "https://api.example.com") 200 imagery_body)
         SubmitVision (filled "" ""))
    <> None.
Proof.
  apply (@vision_typed_success RefPlatform
           (answering (Some "https://api.example.com") 200 imagery_body)
           (filled "" "") (post_image "https://api.example.com") imagery_data).
  - vm_compute. auto.
  - exists {| status := 200; payload := inr imagery_body |}, imagery_body.
    repeat split.
  - reflexivity.
Defined.


(** [session_busy_idle] after an image was picked and analysed. *)
Lemma session_busy_idle_witness :
  busy analysed = None /\
  forall h, disabled h analysed = true <->
            h = SubmitScribeText /\ trim (scribeText analysed) = "".
Proof.
  apply (@session_busy_idle RefPlatform None sample_payload analysed).
  unfold analysed. apply reach_step, reach_step, reach_initial.
Defined.

(** [session_file_label] on the same session. *)
Lemma session_file_label_witness :
  visionFileName analysed =
  match visionFileRef analysed with
  | Some file => name file
  | None => ""
  end /\
  selectedLabel analysed =
  match visionFileRef analysed with
  | Some file => if name file =? "" then None else Some (name file)
  | None => None
  end.
Proof.
  apply (@session_file_label RefPlatform None sample_payload analysed).
  unfold analysed. apply reach_step, reach_step, reach_initial.
Defined.

(** [session_overlay] on the same session. *)
Lemma session_overlay_witness :
  (visionOverlay analysed = None \/
   exists path,
     visionOverlay analysed
     = Some (API_BASE (serving None (fun _ => inl SyntaxError)) ++ path)) /\
  (overlayBox analysed = NoOverlayYet <-> visionOverlay analysed = None).
Proof.
  apply (@session_overlay RefPlatform None sample_payload analysed).
  unfold analysed. apply reach_step, reach_step, reach_initial.
Defined.

